(** * Notification System Server: the three HTTP handlers of [main.py]

    A shallow embedding of [get_recent_mentions], [get_notification_settings]
    and [update_notification_settings], followed by the properties of the
    settings validator, the result shaper, the query builder and the error
    paths.

    Conventions of the embedding.
    - A Python [str] is a [string]; each character is read as the code point
      of the same number, so the strings covered are those whose code points
      are below 256.
    - A Python [dict] with string keys is a [gmap string _].
    - A call that may raise is a value of [outcome]; the Firestore document
      and the writes done on it are threaded through the monad [M]. *)

From Stdlib Require Import ZArith String Ascii List DecimalString.
From Stdlib Require Import Floats.SpecFloat.
From stdpp Require Import gmap strings list fin_maps.

(** ** Python string primitives used by the handlers *)

Module Py.

(** [c.isspace()]: the white space code points below 256. *)
Definition isspace (c : ascii) : bool :=
  let n := N_of_ascii c in
  ((9 <=? n) && (n <=? 13) || (28 <=? n) && (n <=? 32)
   || (n =? 133) || (n =? 160))%N.

Fixpoint lstrip (s : string) : string :=
  match s with
  | EmptyString => EmptyString
  | String c s' => if isspace c then lstrip s' else s
  end.

Fixpoint rstrip (s : string) : string :=
  match s with
  | EmptyString => EmptyString
  | String c s' =>
      match rstrip s' with
      | EmptyString => if isspace c then EmptyString else String c EmptyString
      | r => String c r
      end
  end.

(** [s.strip()] *)
Definition strip (s : string) : string := rstrip (lstrip s).

(** [any(p(c) for c in s)] *)
Fixpoint any_char (p : ascii -> bool) (s : string) : bool :=
  match s with
  | EmptyString => false
  | String c s' => p c || any_char p s'
  end.

(** [sub in s] on strings: [sub] occurs in [s] as a substring. *)
Fixpoint contains (sub s : string) : bool :=
  String.prefix sub s
  || match s with
     | EmptyString => false
     | String _ s' => contains sub s'
     end.

(** [s.split(sep)] for a separator of one character. *)
Fixpoint split (sep : ascii) (s : string) : list string :=
  match s with
  | EmptyString => [EmptyString]
  | String c s' =>
      if Ascii.eqb c sep then EmptyString :: split sep s'
      else match split sep s' with
           | seg :: segs => String c seg :: segs
           | [] => [String c EmptyString]
           end
  end.

(** [sep.join(l)] on a list of strings. *)
Definition join (sep : string) (l : list string) : string :=
  String.concat sep l.

(** Truth value of a string: [if s:]. *)
Definition truthy (s : string) : bool :=
  match s with EmptyString => false | String _ _ => true end.

(** [str(n)] for an integer. *)
Definition str_of_Z (n : Z) : string := NilZero.string_of_int (Z.to_int n).

Definition str_of_nat (n : nat) : string := str_of_Z (Z.of_nat n).

End Py.

(** ** The fragment of [re] used by the sender pattern

    The pattern of the handler is a sequence of items, each one character
    class, taken once or repeated with [+].  [re.match] anchors the pattern
    at the start of the string only; the text after the match is not
    looked at. *)

Module Re.

Inductive item :=
| One (cls : ascii -> bool)
| Many1 (cls : ascii -> bool).

(** Backtracking match of the items at the start of [s]: a [+] first tries
    to take one more character, then to go on with the rest of the pattern. *)
Fixpoint match_ (pat : list item) (s : string) : bool :=
  match pat with
  | [] => true
  | One cls :: rest =>
      match s with
      | EmptyString => false
      | String c s' => cls c && match_ rest s'
      end
  | Many1 cls :: rest =>
      (fix many (s : string) : bool :=
         match s with
         | EmptyString => false
         | String c s' => cls c && (many s' || match_ rest s')
         end) s
  end.

(** [[^@\s]] *)
Definition not_at_space (c : ascii) : bool :=
  negb (Ascii.eqb c "@" || Py.isspace c).

Definition lit (a : ascii) (c : ascii) : bool := Ascii.eqb c a.

(** [r"[^@\s]+@[^@\s]+\.[^@\s]+"] *)
Definition sender_pattern : list item :=
  [Many1 not_at_space; One (lit "@"); Many1 not_at_space; One (lit ".");
   Many1 not_at_space].

End Re.

(** ** Values, exceptions and the external stores *)

(** A value of the JSON request body.  The handler only tests a field
    against [None] and applies [str] to it; a number with a fraction, an
    array or an object is kept as [JOther] with the text [str] gives. *)
Inductive jvalue :=
| JNull
| JBool (b : bool)
| JInt (n : Z)
| JStr (s : string)
| JOther (text : string).

(** [str(v)] *)
Definition py_str (v : jvalue) : string :=
  match v with
  | JNull => "None"
  | JBool true => "True"
  | JBool false => "False"
  | JInt n => Py.str_of_Z n
  | JStr s => s
  | JOther text => text
  end.

(** A field value of a Firestore document. *)
#[warnings="-register-all"]
Inductive fval :=
| FNull
| FBool (b : bool)
| FInt (n : Z)
| FStr (s : string)
| FArr (items : list fval).

(** [type(v).__name__] *)
Definition type_name (v : fval) : string :=
  match v with
  | FNull => "NoneType"
  | FBool _ => "bool"
  | FInt _ => "int"
  | FStr _ => "str"
  | FArr _ => "list"
  end.

(** An exception, with the text [str(e)] gives. *)
Inductive exn := Exception (msg : string).

Definition str_exn (e : exn) : string :=
  match e with Exception msg => msg end.

Inductive outcome (A : Type) :=
| Returned (a : A)
| Raised (e : exn).
Arguments Returned {A} a.
Arguments Raised {A} e.

(** The settings document [settings/configuration]: absent, or its fields;
    [writes] records each [set] that reached the store, latest first. *)
Record world := World {
  store : option (gmap string fval);
  writes : list (gmap string fval)
}.

(** How the calls to the outer world behave during one request: the parsed
    body of the request or the error of [request.json()], and the error, if
    any, that building the client, [get] or [set] raises. *)
Record env := Env {
  request_json : outcome (gmap string jvalue);
  client_error : option exn;
  get_error : option exn;
  set_error : option exn
}.

(** The body of the handlers: state of the store and exceptions. *)
Definition M (A : Type) : Type := world -> outcome A * world.

Definition ret {A} (a : A) : M A := fun w => (Returned a, w).

Definition raise {A} (e : exn) : M A := fun w => (Raised e, w).

Definition bind {A B} (m : M A) (k : A -> M B) : M B :=
  fun w =>
    match m w with
    | (Returned a, w') => k a w'
    | (Raised e, w') => (Raised e, w')
    end.

(** [try: m  except Exception as e: h e] *)
Definition try_except {A} (m : M A) (h : exn -> M A) : M A :=
  fun w =>
    match m w with
    | (Returned a, w') => (Returned a, w')
    | (Raised e, w') => h e w'
    end.

Notation "'do' x <- m ; k" := (bind m (fun x => k))
  (at level 10, x name, m at level 100, k at level 200).
Notation "'run' m ; k" := (bind m (fun _ => k))
  (at level 10, m at level 100, k at level 200).

Definition lift {A} (o : outcome A) : M A := fun w => (o, w).

(** A call that raises the error planned for it, if any. *)
Definition may_raise (err : option exn) : M unit :=
  match err with
  | Some e => raise e
  | None => ret tt
  end.

Module firestore.

(** [firestore.Client(database="notification-system")] *)
Definition Client (E : env) : M unit := may_raise (client_error E).

(** [doc_ref.get()]: [None] when the document does not exist, else
    [doc.to_dict()]. *)
Definition get (E : env) : M (option (gmap string fval)) :=
  run may_raise (get_error E);
  fun w => (Returned (store w), w).

(** [doc_ref.set(updates, merge=True)]: the fields of [updates] replace
    those of the document, the other fields stay; a missing document is
    created. *)
Definition merge (updates : gmap string fval) (old : option (gmap string fval))
  : gmap string fval :=
  updates ∪ default ∅ old.

Definition set_merge (E : env) (updates : gmap string fval) : M unit :=
  run may_raise (set_error E);
  fun w => (Returned tt,
            {| store := Some (merge updates (store w));
               writes := updates :: writes w |}).

End firestore.

(** The JSON bodies the settings handlers answer with. *)
Inductive response :=
| Settings (sender password : fval) (recipients : string)
    (* {"ok": True, "settings": {"sender": .., "password": .., "recipients": ..}} *)
| Success (message : string)
    (* {"ok": True, "message": ..} *)
| Failure (error : string).
    (* {"ok": False, "error": ..} *)

(** ** GET /api/notification-settings *)

(** [",".join(l)] on the items of a stored array: a [TypeError] at the
    first item that is not a string. *)
Fixpoint join_items (i : nat) (l : list fval) : outcome (list string) :=
  match l with
  | [] => Returned []
  | FStr s :: l' =>
      match join_items (S i) l' with
      | Returned ss => Returned (s :: ss)
      | Raised e => Raised e
      end
  | v :: _ =>
      Raised (Exception ("sequence item " +:+ Py.str_of_nat i
                         +:+ ": expected str instance, "
                         +:+ type_name v +:+ " found"))
  end.

Definition get_notification_settings (E : env) : M response :=
  try_except
    (run firestore.Client E;
     do doc <- firestore.get E;
     match doc with
     | None => ret (Settings (FStr "") (FStr "") "")
     | Some data =>
         let recipients_list := default (FArr []) (data !! "recipients") in
         do recipients_str <-
           match recipients_list with
           | FArr l => do ss <- lift (join_items 0 l); ret (Py.join "," ss)
           | _ => ret ""
           end;
         ret (Settings (default (FStr "") (data !! "sender"))
                       (default (FStr "") (data !! "password"))
                       recipients_str)
     end)
    (fun e => ret (Failure (str_exn e))).

(** ** POST /api/notification-settings *)

(** Where the body of the handler stands after one of its blocks: it has
    returned a response, or it goes on with the [updates] built so far. *)
Inductive step :=
| Return (r : response)
| Continue (updates : gmap string fval).

(** ["key" in body and body["key"] is not None], with the value. *)
Definition present (body : gmap string jvalue) (key : string) : option jvalue :=
  match body !! key with
  | None => None
  | Some JNull => None
  | Some v => Some v
  end.

(** Block 1 of the handler. *)
Definition handle_sender (body : gmap string jvalue) (updates : gmap string fval)
  : step :=
  match present body "sender" with
  | Some v =>
      let val := Py.strip (py_str v) in
      if negb (Re.match_ Re.sender_pattern val) || Py.contains "," val
      then Return (Failure "Sender must be a single valid email address.")
      else Continue (<["sender" := FStr val]> updates)
  | None => Continue updates
  end.

(** Block 2 of the handler. *)
Definition handle_password (body : gmap string jvalue) (updates : gmap string fval)
  : step :=
  match present body "password" with
  | Some v =>
      let val := Py.strip (py_str v) in
      if Py.any_char Py.isspace val
      then Return (Failure "Password must not contain whitespaces.")
      else if Py.truthy val
           then Continue (<["password" := FStr val]> updates)
           else Continue updates
  | None => Continue updates
  end.

(** [[e.strip() for e in val.split(",") if e.strip()]] *)
Definition email_list_of (val : string) : list string :=
  List.map Py.strip
    (List.filter (fun e => Py.truthy (Py.strip e)) (Py.split "," val)).

(** The loop over [email_list]: the first address without ["@"], if any. *)
Fixpoint first_invalid (email_list : list string) : option string :=
  match email_list with
  | [] => None
  | email :: rest =>
      if negb (Py.contains "@" email) then Some email else first_invalid rest
  end.

(** Block 3 of the handler. *)
Definition handle_recipients (body : gmap string jvalue)
  (updates : gmap string fval) : step :=
  match present body "recipients" with
  | Some v =>
      let val := Py.strip (py_str v) in
      if Py.contains " " val
      then Return (Failure "Recipients must be comma-separated with NO spaces.")
      else
        let email_list := email_list_of val in
        match first_invalid email_list with
        | Some email =>
            Return (Failure ("Invalid email in recipients: " +:+ email))
        | None => Continue (<["recipients" := FArr (FStr <$> email_list)]> updates)
        end
  | None => Continue updates
  end.

Definition and_then (s : step) (k : gmap string fval -> step) : step :=
  match s with
  | Return r => Return r
  | Continue updates => k updates
  end.

(** The three blocks in the order of the source, from [updates = {}]. *)
Definition validate (body : gmap string jvalue) : step :=
  and_then (and_then (handle_sender body ∅) (handle_password body))
           (handle_recipients body).

(** [if updates:] *)
Definition dict_truthy (updates : gmap string fval) : bool :=
  negb (Nat.eqb (size updates) 0).

Definition update_notification_settings (E : env) : M response :=
  try_except
    (do body <- lift (request_json E);
     match validate body with
     | Return r => ret r
     | Continue updates =>
         run (if dict_truthy updates
              then run firestore.Client E; firestore.set_merge E updates
              else ret tt);
         ret (Success "Settings updated successfully")
     end)
    (fun e => ret (Failure (str_exn e))).

(** ** GET /api/mentions/recent *)

(** A cell of a result row.  A timestamp is kept as the text [str] gives
    for it. *)
Inductive pyval :=
| PNone
| PBool (b : bool)
| PInt (n : Z)
| PFloat (f : spec_float)
| PStr (s : string)
| PDatetime (text : string).

Definition is_digit (c : ascii) : bool :=
  let n := N_of_ascii c in ((48 <=? n) && (n <=? 57))%N.

Definition digit_value (c : ascii) : Z := (Z.of_N (N_of_ascii c) - 48)%Z.

(** Decimal digits with single underscores between them. *)
Fixpoint digits_value (acc : Z) (after_digit : bool) (s : string) : option Z :=
  match s with
  | EmptyString => if after_digit then Some acc else None
  | String c s' =>
      if is_digit c then digits_value (10 * acc + digit_value c)%Z true s'
      else if Ascii.eqb c "_" && after_digit then digits_value acc false s'
      else None
  end.

(** The white space [int] skips around a literal: the characters that are
    space for C, and the white space code points from 127 on, which [int]
    first turns into spaces.  The ASCII separators 28 to 31, white space
    for [str.isspace], are handed to the parser as they are. *)
Definition int_space (c : ascii) : bool :=
  let n := N_of_ascii c in
  ((9 <=? n) && (n <=? 13) || (n =? 32) || (n =? 133) || (n =? 160))%N.

Fixpoint lskip (p : ascii -> bool) (s : string) : string :=
  match s with
  | EmptyString => EmptyString
  | String c s' => if p c then lskip p s' else s
  end.

Fixpoint rskip (p : ascii -> bool) (s : string) : string :=
  match s with
  | EmptyString => EmptyString
  | String c s' =>
      match rskip p s' with
      | EmptyString => if p c then EmptyString else String c EmptyString
      | r => String c r
      end
  end.

(** [sys.int_info.default_max_str_digits]: the most digits a text may have
    to be turned into an integer, and an integer to be turned into text. *)
Definition int_max_str_digits : Z := 4300.

(** The digits of a text, underscores and the rest not counted. *)
Fixpoint digit_count (s : string) : Z :=
  match s with
  | EmptyString => 0
  | String c s' => ((if is_digit c then 1 else 0) + digit_count s')%Z
  end.

(** The literal after the sign. *)
Definition parse_digits (s : string) : option Z :=
  if (int_max_str_digits <? digit_count s)%Z then None
  else digits_value 0%Z false s.

(** [int(v)]; [None] stands for the [TypeError], [ValueError] or
    [OverflowError] the call raises.  A float is truncated towards zero. *)
Definition py_int (v : pyval) : option Z :=
  match v with
  | PNone => None
  | PBool b => Some (if b then 1 else 0)%Z
  | PInt n => Some n
  | PFloat (S754_zero _) => Some 0%Z
  | PFloat (S754_infinity _) => None
  | PFloat S754_nan => None
  | PFloat (S754_finite sign m e) =>
      let a := Z.shiftl (Z.pos m) e in
      Some (if sign then Z.opp a else a)
  | PStr s =>
      let t := rskip int_space (lskip int_space s) in
      match t with
      | EmptyString => None
      | String c digits =>
          if Ascii.eqb c "-" then Z.opp <$> parse_digits digits
          else if Ascii.eqb c "+" then parse_digits digits
          else parse_digits t
      end
  | PDatetime _ => None
  end.

(** The text of an integer in an f-string; [None] stands for the
    [ValueError] of an integer of more than [int_max_str_digits] digits,
    that is of absolute value [10 ^ int_max_str_digits] or more. *)
Definition int_text (n : Z) : option string :=
  if (Z.abs n <? 10 ^ int_max_str_digits)%Z then Some (Py.str_of_Z n)
  else None.

(** [f"{int(sec)}"] *)
Definition seconds_text (sec : pyval) : option string :=
  n ← py_int sec; int_text n.

(** A result row: the attributes it has, by name. *)
Abbreviation Row := (gmap string pyval).

(** [getattr(r, name, None)] *)
Definition getattr (r : Row) (name : string) : pyval :=
  default PNone (r !! name).

(** [bigquery.ScalarQueryParameter(name, type_, value)] *)
Record ScalarQueryParameter := {
  param_name : string;
  param_type : string;
  param_value : Z
}.

(** One record of ["results"]. *)
Record mention := {
  video_name : pyval;
  keyword : pyval;
  text : pyval;
  video_url : pyval;
  link : pyval;
  start_sec : pyval;
  created_at : string
}.

Record mentions_response := {
  count : nat;
  results : list mention
}.

(** The query engine during one request: the error, if any, of building
    the client, and what running a query text with its parameters gives. *)
Record bq_env := {
  bq_client_error : option exn;
  run_query : string -> list ScalarQueryParameter -> outcome (list Row)
}.

Section Mentions.

(** [repr] of a float, the text [str] and an f-string give for it. *)
Variable float_repr : spec_float -> string.

(** The configuration read from the environment when the module loads. *)
Variables GCP_PROJECT_ID BQ_DATASET BQ_MENTIONS_TABLE : string.

(** [str(v)], also what [f"{v}"] gives. *)
Definition cell_str (v : pyval) : string :=
  match v with
  | PNone => "None"
  | PBool true => "True"
  | PBool false => "False"
  | PInt n => Py.str_of_Z n
  | PFloat f => float_repr f
  | PStr s => s
  | PDatetime text => text
  end.

(** The [try] block of the loop: [f"{r.video_url}&t={int(r.start_sec)}s"];
    [None] when an attribute is missing, [int] raises or the integer has no
    text. *)
Definition try_link (r : Row) : option string :=
  url ← r !! "video_url";
  sec ← r !! "start_sec";
  seconds ← seconds_text sec;
  Some (cell_str url +:+ "&t=" +:+ seconds +:+ "s").

(** The value bound to [link] after the [try] / [except Exception]. *)
Definition row_link (r : Row) : pyval :=
  match try_link r with
  | Some l => PStr l
  | None => getattr r "video_url"
  end.

(** The body of the loop: the record appended to [results]. *)
Definition shape (r : Row) : mention :=
  {| video_name := getattr r "video_name";
     keyword := getattr r "keyword";
     text := getattr r "text";
     video_url := getattr r "video_url";
     link := row_link r;
     start_sec := getattr r "start_sec";
     created_at := cell_str (getattr r "created_at") |}.

Definition nl : string := String (ascii_of_nat 10) EmptyString.
Definition tab : string := String (ascii_of_nat 9) EmptyString.

Definition table_id : string :=
  GCP_PROJECT_ID +:+ "." +:+ BQ_DATASET +:+ "." +:+ BQ_MENTIONS_TABLE.

(** The f-string [sql]; [table_id] is the only thing spliced into it. *)
Definition sql : string :=
  nl +:+ tab
  +:+ "SELECT video_name, keyword, text, video_url, start_sec, created_at"
  +:+ nl +:+ tab
  +:+ "FROM `" +:+ table_id +:+ "`"
  +:+ nl +:+ tab
  +:+ "WHERE CAST(created_at AS TIMESTAMP) > TIMESTAMP_SUB(CURRENT_TIMESTAMP(), INTERVAL @hours HOUR)"
  +:+ nl +:+ tab
  +:+ "ORDER BY created_at DESC"
  +:+ nl +:+ tab.

(** [job_config.query_parameters] *)
Definition query_parameters (hours : Z) : list ScalarQueryParameter :=
  [ {| param_name := "hours"; param_type := "INT64"; param_value := hours |} ].

(** What the handler hands to [client.query]. *)
Definition build_query (hours : Z) : string * list ScalarQueryParameter :=
  (sql, query_parameters hours).

(** The handler; there is no [try] around the client and the query, so
    what they raise leaves the handler. *)
Definition get_recent_mentions (B : bq_env) (hours : Z)
  : outcome mentions_response :=
  match bq_client_error B with
  | Some e => Raised e
  | None =>
      match run_query B (fst (build_query hours)) (snd (build_query hours)) with
      | Raised e => Raised e
      | Returned rows =>
          let results := List.map shape rows in
          Returned {| count := length results; results := results |}
      end
  end.

End Mentions.

(** * Vocabulary of the properties *)

(** A request with body [body] during which no external call fails. *)
Definition quiet (body : gmap string jvalue) : env :=
  {| request_json := Returned body; client_error := None;
     get_error := None; set_error := None |}.

(** The same external behaviour with another body. *)
Definition with_body (E : env) (body : gmap string jvalue) : env :=
  {| request_json := Returned body; client_error := client_error E;
     get_error := get_error E; set_error := set_error E |}.

(** The stored value of field [k], if the document and the field exist. *)
Definition field (w : world) (k : string) : option fval :=
  doc ← store w; doc !! k.

(** The answer of a successful update. *)
Definition success : response := Success "Settings updated successfully".

(** A block rejects: it returns a response whatever [updates] holds. *)
Definition rejects (block : gmap string jvalue -> gmap string fval -> step)
  (body : gmap string jvalue) : Prop :=
  exists updates r, block body updates = Return r.

(** The reasons the validator gives. *)
Definition validation_reason (reason : string) : Prop :=
  reason = "Sender must be a single valid email address."
  \/ reason = "Password must not contain whitespaces."
  \/ reason = "Recipients must be comma-separated with NO spaces."
  \/ exists email, reason = "Invalid email in recipients: " +:+ email.

(** What each field of the body puts into [updates]. *)
Definition sender_update (body : gmap string jvalue) : option fval :=
  v ← present body "sender"; Some (FStr (Py.strip (py_str v))).

Definition password_update (body : gmap string jvalue) : option fval :=
  v ← present body "password";
  let val := Py.strip (py_str v) in
  if Py.truthy val then Some (FStr val) else None.

Definition recipients_update (body : gmap string jvalue) : option fval :=
  v ← present body "recipients";
  Some (FArr (FStr <$> email_list_of (Py.strip (py_str v)))).

(** The request holds a field that puts something into [updates]. *)
Definition yields_update (body : gmap string jvalue) : Prop :=
  is_Some (present body "sender")
  \/ is_Some (present body "recipients")
  \/ exists v, present body "password" = Some v
               /\ Py.strip (py_str v) <> EmptyString.

(** The recipients in the words of the specification: split on commas,
    trim each segment, drop the empty ones. *)
Definition candidates (val : string) : list string :=
  List.filter Py.truthy (List.map Py.strip (Py.split "," val)).

(** [email] has an ["@"]. *)
Definition has_at (email : string) : Prop :=
  exists a b, email = a +:+ "@" +:+ b.

(** [all(p(c) for c in s)] *)
Fixpoint all_chars (p : ascii -> bool) (s : string) : bool :=
  match s with
  | EmptyString => true
  | String c s' => p c && all_chars p s'
  end.

(** A run matched by [[^@\s]+]. *)
Definition word (a : string) : Prop :=
  a <> EmptyString /\ all_chars Re.not_at_space a = true.

(** A number: an integer, a boolean, or a float that is finite. *)
Definition is_number (v : pyval) : bool :=
  match v with
  | PBool _ | PInt _ => true
  | PFloat (S754_zero _) | PFloat (S754_finite _ _ _) => true
  | _ => false
  end.

(** The bound parameter of the query. *)
Definition hours_parameter (hours : Z) : ScalarQueryParameter :=
  {| param_name := "hours"; param_type := "INT64"; param_value := hours |}.

(** A text that [strip] leaves as it is. *)
Definition trimmed (s : string) : Prop := Py.strip s = s.

(** [c not in s] for a character. *)
Definition lacks (c : ascii) (s : string) : Prop :=
  Py.any_char (Ascii.eqb c) s = false.

(** An address as the update handler stores it in [recipients]: not empty,
    trimmed, with an ["@"], without comma and without space. *)
Definition stored_address (e : string) : Prop :=
  e <> EmptyString /\ trimmed e /\ has_at e /\ lacks "," e /\ lacks " " e.

(** The string items of a stored array. *)
Definition strings_of (items : list fval) : list string :=
  omap (fun v => match v with FStr s => Some s | _ => None end) items.

(** The text the read handler gives for a stored string or array. *)
Definition as_text (v : fval) : string :=
  match v with
  | FStr s => s
  | FArr items => Py.join "," (strings_of items)
  | _ => EmptyString
  end.

(** The body that sends back, as texts, the fields of [updates]. *)
Definition resubmitted (updates : gmap string fval) : gmap string jvalue :=
  (fun v => JStr (as_text v)) <$> updates.

(** The integer part [a] of the float [m * 2 ^ e]. *)
Definition float_floor (m : positive) (e a : Z) : Prop :=
  if (0 <=? e)%Z then a = (Z.pos m * 2 ^ e)%Z
  else (a * 2 ^ (- e) <= Z.pos m < (a + 1) * 2 ^ (- e))%Z.

(** The number a text of decimal digits writes. *)
Fixpoint decimal_value (acc : Z) (s : string) : Z :=
  match s with
  | EmptyString => acc
  | String c s' => decimal_value (10 * acc + digit_value c)%Z s'
  end.

(** The characters an integer literal may hold. *)
Definition literal_char (c : ascii) : bool :=
  is_digit c || Ascii.eqb c "_" || Ascii.eqb c "+" || Ascii.eqb c "-"
  || int_space c.

(** A numeric cell and the integer number of seconds it stands for: an
    integer, a boolean, a finite float cut towards zero, a text of at most
    4300 decimal digits. *)
Inductive numeric : pyval -> Z -> Prop :=
| numeric_int (n : Z) : numeric (PInt n) n
| numeric_bool (b : bool) : numeric (PBool b) (if b then 1 else 0)%Z
| numeric_zero (sign : bool) : numeric (PFloat (S754_zero sign)) 0%Z
| numeric_float (sign : bool) (m : positive) (e a : Z) :
    float_floor m e a ->
    numeric (PFloat (S754_finite sign m e)) (if sign then Z.opp a else a)
| numeric_digits (s : string) :
    s <> EmptyString -> all_chars is_digit s = true ->
    (Z.of_nat (String.length s) <= 4300)%Z ->
    numeric (PStr s) (decimal_value 0 s).

(** A cell that is null or not numeric: null, a NaN, an infinity, a
    timestamp, a text that is blank or holds a character no integer literal
    has. *)
Inductive not_numeric : pyval -> Prop :=
| not_numeric_null : not_numeric PNone
| not_numeric_nan : not_numeric (PFloat S754_nan)
| not_numeric_infinity (sign : bool) : not_numeric (PFloat (S754_infinity sign))
| not_numeric_datetime (text : string) : not_numeric (PDatetime text)
| not_numeric_blank (s : string) :
    all_chars int_space s = true -> not_numeric (PStr s)
| not_numeric_text (s : string) :
    Py.any_char (fun c => negb (literal_char c)) s = true ->
    not_numeric (PStr s).

(** * Properties *)

(** ** Strings *)

Lemma str_app_nil (b : string) : EmptyString +:+ b = b.
Proof. reflexivity. Qed.

Lemma str_app_cons (c : ascii) (a b : string) :
  String c a +:+ b = String c (a +:+ b).
Proof. reflexivity. Qed.

Ltac str_norm := rewrite ?str_app_nil, ?str_app_cons in *.

Lemma prefix_app (sub s : string) :
  String.prefix sub s = true <-> exists b, s = sub +:+ b.
Proof.
  revert s. induction sub as [|a sub IH]; intros s.
  - destruct s; simpl; split; eauto.
  - destruct s as [|c s]; simpl.
    + split; [discriminate | intros [b Hb]; discriminate].
    + destruct (ascii_dec a c) as [->|Hne].
      * rewrite IH. split; intros [b Hb]; exists b; str_norm; congruence.
      * split; [discriminate | intros [b Hb]; str_norm; congruence].
Qed.

Lemma contains_spec (sub s : string) :
  Py.contains sub s = true <-> exists a b, s = a +:+ sub +:+ b.
Proof.
  induction s as [|c s IH].
  - cbn [Py.contains]. rewrite orb_false_r, prefix_app. split.
    + intros [b Hb]. exists EmptyString, b. exact Hb.
    + intros [a [b Hab]]. destruct a; [eauto | discriminate].
  - cbn [Py.contains]. rewrite orb_true_iff, prefix_app, IH. split.
    + intros [[b Hb] | [a [b Hab]]].
      * exists EmptyString, b. exact Hb.
      * exists (String c a), b. str_norm. congruence.
    + intros [a [b Hab]]. destruct a as [|c' a]; str_norm.
      * left. eauto.
      * right. exists a, b. congruence.
Qed.

Lemma any_char_spec (p : ascii -> bool) (s : string) :
  Py.any_char p s = true <->
  exists a c b, s = a +:+ String c b /\ p c = true.
Proof.
  induction s as [|c s IH]; simpl.
  - split; [discriminate |].
    intros (a & c & b & Hs & _). destruct a; discriminate.
  - rewrite orb_true_iff, IH. split.
    + intros [Hc | (a & c' & b & -> & Hc')].
      * exists EmptyString, c, s. auto.
      * exists (String c a), c', b. auto.
    + intros (a & c' & b & Hs & Hc'). destruct a as [|x a]; str_norm.
      * left. congruence.
      * right. exists a, c', b. split; congruence.
Qed.

(** A one-character needle: [c in s] is membership of the character. *)
Lemma contains_char (c : ascii) (s : string) :
  Py.contains (String c EmptyString) s = Py.any_char (Ascii.eqb c) s.
Proof.
  apply eq_true_iff_eq. rewrite contains_spec, any_char_spec. split.
  - intros (a & b & ->). exists a, c, b. split; [reflexivity | apply Ascii.eqb_refl].
  - intros (a & c' & b & -> & Hc). apply Ascii.eqb_eq in Hc. subst c'.
    exists a, b. reflexivity.
Qed.

Lemma lstrip_head (s : string) c t :
  Py.lstrip s = String c t -> Py.isspace c = false.
Proof.
  induction s as [|x s IH]; simpl; [discriminate |].
  destruct (Py.isspace x) eqn:Hx; [exact IH |]. congruence.
Qed.

(** [rstrip] keeps a first character that is there to stay. *)
Lemma rstrip_head (s : string) c t :
  Py.rstrip s = String c t -> exists t', s = String c t'.
Proof.
  destruct s as [|x s]; simpl; [discriminate |].
  destruct (Py.rstrip s); [destruct (Py.isspace x) |]; intros H;
    inversion H; eauto.
Qed.

Lemma rstrip_last (s : string) a c :
  Py.rstrip s = a +:+ String c EmptyString -> Py.isspace c = false.
Proof.
  revert a. induction s as [|x s IH]; intros a; simpl.
  - destruct a; discriminate.
  - destruct (Py.rstrip s) as [|y r] eqn:Hr.
    + destruct (Py.isspace x) eqn:Hx.
      * destruct a; discriminate.
      * destruct a as [|z a]; str_norm; intros H; inversion H; subst; auto.
        destruct a; discriminate.
    + destruct a as [|z a]; str_norm; intros H; inversion H; subst.
      eapply IH; eassumption.
Qed.

Lemma strip_head (s : string) c t :
  Py.strip s = String c t -> Py.isspace c = false.
Proof.
  unfold Py.strip. intros H. apply rstrip_head in H as [t' H].
  eapply lstrip_head, H.
Qed.

(** White space left in a stripped string is inside it: there is a
    character before it and one after it. *)
Lemma strip_space_inside (s a b : string) (c : ascii) :
  Py.strip s = a +:+ String c b -> Py.isspace c = true ->
  a <> EmptyString /\ b <> EmptyString.
Proof.
  intros Hs Hc. split; intros ->.
  - str_norm. apply strip_head in Hs. congruence.
  - apply rstrip_last in Hs. congruence.
Qed.

Lemma split_not_nil (sep : ascii) (s : string) : Py.split sep s <> [].
Proof.
  destruct s as [|c s]; simpl; [discriminate |].
  destruct (Ascii.eqb c sep); [discriminate |].
  destruct (Py.split sep s); discriminate.
Qed.

Lemma join_cons2 (sep x y : string) (l : list string) :
  Py.join sep (x :: y :: l) = x +:+ sep +:+ Py.join sep (y :: l).
Proof. reflexivity. Qed.

(** Joining the segments with the separator gives the string back. *)
Lemma join_split (sep : ascii) (s : string) :
  Py.join (String sep EmptyString) (Py.split sep s) = s.
Proof.
  induction s as [|c s IH]; simpl; [reflexivity |].
  pose proof (split_not_nil sep s) as Hnil.
  destruct (Ascii.eqb_spec c sep) as [->|Hne];
    destruct (Py.split sep s) as [|seg segs]; try contradiction.
  - rewrite join_cons2, IH. reflexivity.
  - destruct segs as [|seg' segs].
    + simpl in *. congruence.
    + rewrite join_cons2 in *. str_norm. congruence.
Qed.

(** No segment holds the separator. *)
Lemma split_no_sep (sep : ascii) (s : string) :
  Forall (fun seg => Py.any_char (Ascii.eqb sep) seg = false) (Py.split sep s).
Proof.
  induction s as [|c s IH]; simpl.
  - repeat constructor.
  - destruct (Ascii.eqb_spec c sep) as [->|Hne].
    + constructor; [reflexivity | exact IH].
    + destruct (Py.split sep s) as [|seg segs]; simpl.
      * repeat constructor. simpl.
        rewrite orb_false_r. apply Ascii.eqb_neq. congruence.
      * inversion IH; subst. constructor; [| assumption].
        simpl. apply orb_false_iff. split; [| assumption].
        apply Ascii.eqb_neq. congruence.
Qed.

(** ** The recipients list *)

Lemma map_filter_swap {A B} (f : A -> B) (p : B -> bool) (l : list A) :
  List.map f (List.filter (fun x => p (f x)) l) = List.filter p (List.map f l).
Proof.
  induction l as [|x l IH]; simpl; [reflexivity |].
  destruct (p (f x)); simpl; congruence.
Qed.

Lemma email_list_of_candidates (val : string) :
  email_list_of val = candidates val.
Proof. apply map_filter_swap. Qed.

Lemma contains_at (email : string) :
  Py.contains "@" email = true <-> has_at email.
Proof. apply contains_spec. Qed.

(** The loop stops at the first address without ["@"]. *)
Lemma first_invalid_Some (l : list string) (email : string) :
  first_invalid l = Some email <->
  exists before after,
    l = before ++ email :: after /\ Forall has_at before /\ ~ has_at email.
Proof.
  induction l as [|x l IH]; simpl.
  - split; [discriminate |].
    intros (before & after & H & _). destruct before; discriminate.
  - destruct (Py.contains "@" x) eqn:Hx; simpl.
    + rewrite IH. apply contains_at in Hx. split.
      * intros (before & after & -> & Hb & He).
        exists (x :: before), after. auto.
      * intros (before & after & Hl & Hb & He).
        destruct before as [|y before]; simpl in Hl; inversion Hl; subst.
        -- contradiction.
        -- inversion Hb; subst. eauto.
    + assert (~ has_at x) as Hnx.
      { rewrite <- contains_at. congruence. }
      split.
      * intros [= ->]. exists [], l. auto.
      * intros (before & after & Hl & Hb & He).
        destruct before as [|y before]; simpl in Hl; inversion Hl; subst.
        -- reflexivity.
        -- inversion Hb; subst. contradiction.
Qed.

Lemma first_invalid_None (l : list string) :
  first_invalid l = None <-> Forall has_at l.
Proof.
  induction l as [|x l IH]; simpl.
  - split; auto.
  - destruct (Py.contains "@" x) eqn:Hx; simpl.
    + rewrite IH. apply contains_at in Hx. split.
      * auto.
      * intros H. inversion H; auto.
    + split; [discriminate |]. intros H. inversion H; subst.
      apply contains_at in H2. congruence.
Qed.

(** ** The blocks of the update handler *)

Lemma handle_sender_Return body updates r :
  handle_sender body updates = Return r ->
  r = Failure "Sender must be a single valid email address."
  /\ forall updates', handle_sender body updates' = Return r.
Proof.
  unfold handle_sender. destruct (present body "sender") as [v|]; [| discriminate].
  cbv zeta. destruct (_ || _); [| discriminate].
  intros [= <-]. auto.
Qed.

Lemma handle_password_Return body updates r :
  handle_password body updates = Return r ->
  r = Failure "Password must not contain whitespaces."
  /\ forall updates', handle_password body updates' = Return r.
Proof.
  unfold handle_password.
  destruct (present body "password") as [v|]; [| discriminate].
  cbv zeta. destruct (Py.any_char _ _).
  - intros [= <-]. auto.
  - destruct (Py.truthy _); discriminate.
Qed.

Lemma handle_recipients_Return body updates r :
  handle_recipients body updates = Return r ->
  (exists reason, r = Failure reason /\ validation_reason reason)
  /\ forall updates', handle_recipients body updates' = Return r.
Proof.
  unfold handle_recipients, validation_reason.
  destruct (present body "recipients") as [v|]; [| discriminate].
  cbv zeta. destruct (Py.contains " " _).
  - intros [= <-]. eauto 10.
  - destruct (first_invalid _); [| discriminate].
    intros [= <-]. eauto 10.
Qed.

Lemma validate_rejects body :
  rejects handle_sender body \/ rejects handle_password body
  \/ rejects handle_recipients body ->
  exists reason,
    validate body = Return (Failure reason) /\ validation_reason reason.
Proof.
  intros H. unfold validate.
  destruct (handle_sender body ∅) as [r1|u1] eqn:H1; simpl.
  { apply handle_sender_Return in H1 as [-> _].
    eexists. split; [reflexivity |]. unfold validation_reason. auto. }
  destruct (handle_password body u1) as [r2|u2] eqn:H2; simpl.
  { apply handle_password_Return in H2 as [-> _].
    eexists. split; [reflexivity |]. unfold validation_reason. auto. }
  destruct (handle_recipients body u2) as [r3|u3] eqn:H3.
  { apply handle_recipients_Return in H3 as [(reason & -> & Hwhy) _]. eauto. }
  destruct H as [(u & r & H) | [(u & r & H) | (u & r & H)]].
  - apply handle_sender_Return in H as [_ H]. rewrite H in H1. discriminate.
  - apply handle_password_Return in H as [_ H]. rewrite H in H2. discriminate.
  - apply handle_recipients_Return in H as [_ H]. rewrite H in H3. discriminate.
Qed.

(** ** The update handler after validation *)

Lemma update_Return E body r w :
  request_json E = Returned body -> validate body = Return r ->
  update_notification_settings E w = (Returned r, w).
Proof.
  intros Hreq Hval.
  unfold update_notification_settings, try_except, bind, lift, ret.
  rewrite Hreq, Hval. reflexivity.
Qed.

Lemma update_Continue E body updates w :
  request_json E = Returned body -> validate body = Continue updates ->
  update_notification_settings E w =
    if dict_truthy updates then
      match client_error E, set_error E with
      | Some e, _ => (Returned (Failure (str_exn e)), w)
      | None, Some e => (Returned (Failure (str_exn e)), w)
      | None, None =>
          (Returned success,
           {| store := Some (firestore.merge updates (store w));
              writes := updates :: writes w |})
      end
    else (Returned success, w).
Proof.
  intros Hreq Hval.
  unfold update_notification_settings, try_except, bind, lift, ret.
  rewrite Hreq, Hval.
  destruct (dict_truthy updates); [| reflexivity].
  unfold firestore.Client, firestore.set_merge, may_raise, bind, raise, ret.
  destruct (client_error E); [reflexivity |].
  destruct (set_error E); reflexivity.
Qed.

Lemma dict_truthy_false (updates : gmap string fval) :
  dict_truthy updates = false <-> updates = ∅.
Proof.
  unfold dict_truthy. rewrite negb_false_iff, Nat.eqb_eq.
  apply map_size_empty_iff.
Qed.

Lemma dict_truthy_true (updates : gmap string fval) :
  dict_truthy updates = true <-> updates <> ∅.
Proof.
  rewrite <- dict_truthy_false. destruct (dict_truthy updates); split; congruence.
Qed.

Lemma validate_Continue body updates :
  validate body = Continue updates ->
  updates !! "sender" = sender_update body
  /\ updates !! "password" = password_update body
  /\ updates !! "recipients" = recipients_update body
  /\ forall k, k <> "sender" -> k <> "password" -> k <> "recipients" ->
       updates !! k = None.
Proof.
  unfold validate, handle_sender, handle_password, handle_recipients, and_then,
    sender_update, password_update, recipients_update.
  cbv zeta. intros H.
  repeat (case_match; simplify_eq);
    repeat match goal with
           | Hp : present _ _ = _ |- _ => rewrite Hp; clear Hp
           end;
    cbn [mbind option_bind]; cbv zeta;
    repeat match goal with
           | Ht : Py.truthy _ = _ |- _ => rewrite Ht; clear Ht
           end;
    repeat split; intros; simplify_map_eq; reflexivity.
Qed.

(** ** The sender pattern *)

Lemma match_nil (s : string) : Re.match_ [] s = true.
Proof. destruct s; reflexivity. Qed.

Lemma match_One cls rest (s : string) :
  Re.match_ (Re.One cls :: rest) s = true <->
  exists c b, s = String c b /\ cls c = true /\ Re.match_ rest b = true.
Proof.
  destruct s as [|c s]; simpl.
  - split; [discriminate | intros (c & b & H & _); discriminate].
  - rewrite andb_true_iff. split.
    + intros [Hc Hr]. eauto.
    + intros (c' & b & [= -> ->] & Hc & Hr). auto.
Qed.

Lemma match_Many1_step cls rest c (s : string) :
  Re.match_ (Re.Many1 cls :: rest) (String c s) =
  cls c && (Re.match_ (Re.Many1 cls :: rest) s || Re.match_ rest s).
Proof. reflexivity. Qed.

Lemma match_Many1 cls rest (s : string) :
  Re.match_ (Re.Many1 cls :: rest) s = true <->
  exists a b, s = a +:+ b /\ a <> EmptyString /\ all_chars cls a = true
              /\ Re.match_ rest b = true.
Proof.
  induction s as [|c s IH].
  - split; [discriminate |].
    intros (a & b & Hs & Ha & _). destruct a; [contradiction | discriminate].
  - rewrite match_Many1_step, andb_true_iff, orb_true_iff, IH. split.
    + intros [Hc [(a & b & -> & Ha & Hall & Hr) | Hr]].
      * exists (String c a), b. str_norm. simpl. rewrite Hc, Hall. auto.
      * exists (String c EmptyString), s. simpl. rewrite Hc. auto.
    + intros (a & b & Hs & Ha & Hall & Hr).
      destruct a as [|x a]; [contradiction |].
      str_norm. injection Hs as -> ->.
      simpl in Hall. apply andb_true_iff in Hall as [Hc Hall].
      split; [assumption |].
      destruct a as [|y a].
      * right. assumption.
      * left. exists (String y a), b. auto.
Qed.

(** What [re.match] of the sender pattern accepts: a string that starts
    with [l@d.t] for three runs without ["@"] and white space; whatever
    follows is accepted too. *)
Lemma sender_pattern_spec (s : string) :
  Re.match_ Re.sender_pattern s = true <->
  exists l d t rest,
    s = l +:+ "@" +:+ d +:+ "." +:+ t +:+ rest
    /\ word l /\ word d /\ word t.
Proof.
  unfold Re.sender_pattern, word. rewrite match_Many1. split.
  - intros (l & b1 & -> & Hl & Hl' & H).
    apply match_One in H as (c1 & b2 & -> & Hc1 & H).
    apply Ascii.eqb_eq in Hc1 as ->.
    apply match_Many1 in H as (d & b3 & -> & Hd & Hd' & H).
    apply match_One in H as (c2 & b4 & -> & Hc2 & H).
    apply Ascii.eqb_eq in Hc2 as ->.
    apply match_Many1 in H as (t & rest & -> & Ht & Ht' & _).
    exists l, d, t, rest. auto 10.
  - intros (l & d & t & rest & -> & [Hl Hl'] & [Hd Hd'] & [Ht Ht']).
    exists l, ("@" +:+ d +:+ "." +:+ t +:+ rest).
    repeat split; try assumption.
    apply match_One. exists "@"%char, (d +:+ "." +:+ t +:+ rest).
    repeat split.
    apply match_Many1. exists d, ("." +:+ t +:+ rest).
    repeat split; try assumption.
    apply match_One. exists "."%char, (t +:+ rest).
    repeat split.
    apply match_Many1. exists t, rest.
    repeat split; assumption.
Qed.

(** ** Sender *)

(** What block 1 does with a sender that is there: it is accepted exactly
    when its trimmed text starts with [l@d.t] and has no comma, and the
    trimmed text is what goes into [updates]. *)
Lemma handle_sender_spec body updates v :
  present body "sender" = Some v ->
  let val := Py.strip (py_str v) in
  let accepted :=
    (exists l d t rest,
        val = l +:+ "@" +:+ d +:+ "." +:+ t +:+ rest
        /\ word l /\ word d /\ word t)
    /\ Py.contains "," val = false in
  (accepted
   /\ handle_sender body updates = Continue (<["sender" := FStr val]> updates))
  \/ (~ accepted
      /\ handle_sender body updates =
           Return (Failure "Sender must be a single valid email address.")).
Proof.
  intros Hp val accepted. unfold accepted, handle_sender. rewrite Hp. fold val.
  rewrite <- sender_pattern_spec.
  destruct (Re.match_ Re.sender_pattern val); destruct (Py.contains "," val);
    cbn [negb orb]; [right | left | right | right];
    split; try reflexivity; try tauto; intros [? ?]; congruence.
Qed.
(** ** Facts used for the update handler *)

Lemma truthy_true (s : string) : Py.truthy s = true <-> s <> EmptyString.
Proof. destruct s; simpl; split; congruence. Qed.

Lemma present_delete_ne (body : gmap string jvalue) (k k' : string) :
  k <> k' -> present (delete k body) k' = present body k'.
Proof.
  intros Hne. unfold present. rewrite lookup_delete_ne by assumption.
  reflexivity.
Qed.

Lemma present_delete_eq (body : gmap string jvalue) (k : string) :
  present (delete k body) k = None.
Proof. unfold present. rewrite lookup_delete_eq. reflexivity. Qed.

(** A block that rejects does so for a field that is in the body and not
    null. *)
Lemma rejects_present body :
  (rejects handle_sender body -> is_Some (present body "sender"))
  /\ (rejects handle_password body -> is_Some (present body "password"))
  /\ (rejects handle_recipients body -> is_Some (present body "recipients")).
Proof.
  unfold rejects, handle_sender, handle_password, handle_recipients.
  repeat split; intros (u & r & H);
    match goal with |- is_Some ?p => destruct p end; eauto; discriminate.
Qed.

Lemma handle_recipients_spec body updates v :
  present body "recipients" = Some v ->
  let val := Py.strip (py_str v) in
  handle_recipients body updates =
    if Py.contains " " val
    then Return (Failure "Recipients must be comma-separated with NO spaces.")
    else match first_invalid (candidates val) with
         | Some email =>
             Return (Failure ("Invalid email in recipients: " +:+ email))
         | None =>
             Continue (<["recipients" := FArr (FStr <$> candidates val)]> updates)
         end.
Proof.
  intros Hp val. unfold handle_recipients. rewrite Hp. fold val.
  rewrite email_list_of_candidates. reflexivity.
Qed.

Lemma validate_yields_update body updates :
  validate body = Continue updates ->
  updates <> ∅ <-> yields_update body.
Proof.
  intros Hval. apply validate_Continue in Hval as (Hs & Hp & Hr & Ho).
  unfold sender_update, password_update, recipients_update in *.
  unfold yields_update. split.
  - intros Hne. apply map_choose in Hne as (k & x & Hk).
    destruct (decide (k = "sender")) as [->|?].
    { left. rewrite Hs in Hk. destruct (present body "sender"); eauto.
      discriminate. }
    destruct (decide (k = "recipients")) as [->|?].
    { right. left. rewrite Hr in Hk. destruct (present body "recipients"); eauto.
      discriminate. }
    destruct (decide (k = "password")) as [->|?].
    { right. right. rewrite Hp in Hk.
      destruct (present body "password") as [v|]; [| discriminate].
      exists v. split; [reflexivity |]. cbn in Hk.
      apply truthy_true. destruct (Py.truthy _); congruence. }
    rewrite Ho in Hk by assumption. discriminate.
  - intros [[v Hv] | [[v Hv] | (v & Hv & Hne)]] ->.
    + rewrite Hv, lookup_empty in Hs. discriminate.
    + rewrite Hv, lookup_empty in Hr. discriminate.
    + rewrite Hv, lookup_empty in Hp. cbn in Hp.
      apply truthy_true in Hne. rewrite Hne in Hp. discriminate.
Qed.

(** The write holds fields of the request only. *)
Lemma validate_only_present body updates k :
  validate body = Continue updates -> is_Some (updates !! k) ->
  is_Some (present body k)
  /\ (k = "sender" \/ k = "password" \/ k = "recipients").
Proof.
  intros Hval [x Hk].
  apply validate_Continue in Hval as (Hs & Hp & Hr & Ho).
  unfold sender_update, password_update, recipients_update in *.
  destruct (decide (k = "sender")) as [->|?].
  { rewrite Hs in Hk. destruct (present body "sender"); eauto. discriminate. }
  destruct (decide (k = "password")) as [->|?].
  { rewrite Hp in Hk. destruct (present body "password"); eauto. discriminate. }
  destruct (decide (k = "recipients")) as [->|?].
  { rewrite Hr in Hk. destruct (present body "recipients"); eauto.
    discriminate. }
  rewrite Ho in Hk by assumption. discriminate.
Qed.

(** A validation that returns, returns a failure. *)
Lemma validate_Return body r :
  validate body = Return r -> exists reason, r = Failure reason.
Proof.
  unfold validate. intros Hr.
  destruct (handle_sender body ∅) as [r1|u1] eqn:H1; simpl in Hr.
  { apply handle_sender_Return in H1 as [-> _]. injection Hr as <-. eauto. }
  destruct (handle_password body u1) as [r2|u2] eqn:H2; simpl in Hr.
  { apply handle_password_Return in H2 as [-> _]. injection Hr as <-. eauto. }
  apply handle_recipients_Return in Hr as [(reason & -> & _) _]. eauto.
Qed.

(** A merging write keeps the fields it does not hold. *)
Lemma merge_frame (updates : gmap string fval) (w : world) (k : string) :
  updates !! k = None ->
  firestore.merge updates (store w) !! k = field w k.
Proof.
  intros Hk. unfold firestore.merge, field. rewrite lookup_union_r by exact Hk.
  destruct (store w); reflexivity.
Qed.

(** A password that is empty once trimmed is handled as a body without
    the password. *)
Lemma validate_empty_password body v :
  present body "password" = Some v -> Py.strip (py_str v) = EmptyString ->
  validate body = validate (delete "password" body).
Proof.
  intros Hp He.
  unfold validate, handle_sender, handle_password, handle_recipients.
  rewrite present_delete_eq, !present_delete_ne by discriminate.
  rewrite Hp. cbv zeta. rewrite He. reflexivity.
Qed.

(** ** The update handler on a request with a parsed body *)

Section UpdateRequest.

Variable E : env.
Variable body : gmap string jvalue.
Variable w : world.
Hypothesis Hreq : request_json E = Returned body.

Lemma rejection_writes_nothing :
  rejects handle_sender body \/ rejects handle_password body
  \/ rejects handle_recipients body ->
  exists reason,
    update_notification_settings E w = (Returned (Failure reason), w)
    /\ validation_reason reason.
Proof.
  intros Hrej. apply validate_rejects in Hrej as (reason & Hval & Hwhy).
  exists reason. split; [| exact Hwhy]. eapply update_Return; eassumption.
Qed.

(** The blocks before the third one pass and the third one rejects: its
    reason is the answer. *)
Lemma recipients_reason u reason :
  and_then (handle_sender body ∅) (handle_password body) = Continue u ->
  handle_recipients body u = Return (Failure reason) ->
  update_notification_settings E w = (Returned (Failure reason), w).
Proof.
  intros Hu Hr. eapply update_Return; [eassumption |].
  unfold validate. rewrite Hu. exact Hr.
Qed.

(** C3: when the block of a field that is present rejects its value, the
    handler answers [{ok: false, error: reason}], where the reason is one of
    the messages of the validator, and leaves the document and the list of
    writes as they were, whatever the other fields hold. *)
Theorem C3_rejection_writes_nothing :
  rejects handle_sender body \/ rejects handle_password body
  \/ rejects handle_recipients body ->
  exists reason,
    update_notification_settings E w = (Returned (Failure reason), w)
    /\ validation_reason reason
    /\ store (snd (update_notification_settings E w)) = store w
    /\ writes (snd (update_notification_settings E w)) = writes w.
Proof.
  intros Hrej. destruct (rejection_writes_nothing Hrej) as (reason & Hup & Hwhy).
  exists reason. rewrite Hup. auto.
Qed.

(** C4: for a recipients value that is there, with [val] its trimmed text
    and [candidates val] the comma-separated segments, trimmed, without the
    empty ones, in their order and with their repetitions:
    - a space in [val] makes block 3 return the no-spaces error and the
      handler reject the update without a write;
    - otherwise the first candidate without ["@"] makes block 3 return an
      error that names it, and the handler reject the update without a
      write;
    - otherwise the list of candidates is the value of [recipients] in the
      updates, and the one written when the other fields pass and the store
      answers.
    When the blocks of sender and password pass, the error of block 3 is
    the one the handler answers with. *)
Theorem C4_recipients (v : jvalue) :
  present body "recipients" = Some v ->
  let val := Py.strip (py_str v) in
  let spaces := "Recipients must be comma-separated with NO spaces." in
  (Py.contains " " val = true ->
     (forall u, handle_recipients body u = Return (Failure spaces))
     /\ (exists reason,
           update_notification_settings E w = (Returned (Failure reason), w))
     /\ (forall u,
           and_then (handle_sender body ∅) (handle_password body) = Continue u ->
           update_notification_settings E w = (Returned (Failure spaces), w)))
  /\ (Py.contains " " val = false ->
      forall before email after,
        candidates val = before ++ email :: after ->
        Forall has_at before -> ~ has_at email ->
        let invalid := "Invalid email in recipients: " +:+ email in
        (forall u, handle_recipients body u = Return (Failure invalid))
        /\ (exists reason,
              update_notification_settings E w = (Returned (Failure reason), w))
        /\ (forall u,
              and_then (handle_sender body ∅) (handle_password body)
              = Continue u ->
              update_notification_settings E w
              = (Returned (Failure invalid), w)))
  /\ (Py.contains " " val = false -> Forall has_at (candidates val) ->
      forall u,
        and_then (handle_sender body ∅) (handle_password body) = Continue u ->
        let updates := <["recipients" := FArr (FStr <$> candidates val)]> u in
        validate body = Continue updates
        /\ (client_error E = None -> set_error E = None ->
            update_notification_settings E w =
              (Returned success,
               {| store := Some (firestore.merge updates (store w));
                  writes := updates :: writes w |}))).
Proof.
  intros Hp val spaces.
  pose proof (fun u => handle_recipients_spec body u v Hp) as Hspec.
  cbv zeta in Hspec. fold val in Hspec.
  assert (forall reason,
            (forall u, handle_recipients body u = Return (Failure reason)) ->
            (exists reason',
               update_notification_settings E w = (Returned (Failure reason'), w))
            /\ (forall u,
                  and_then (handle_sender body ∅) (handle_password body)
                  = Continue u ->
                  update_notification_settings E w
                  = (Returned (Failure reason), w))) as Hanswer.
  { intros reason Hrej. split.
    - destruct rejection_writes_nothing as (reason' & Hup & _); [| eauto].
      right. right. exists ∅. eexists. apply Hrej.
    - intros u Hu. eapply recipients_reason; [exact Hu | apply Hrej]. }
  split; [| split].
  - intros Hsp.
    assert (forall u, handle_recipients body u = Return (Failure spaces))
      as Hrej.
    { intros u. rewrite Hspec, Hsp. reflexivity. }
    split; [exact Hrej | exact (Hanswer _ Hrej)].
  - intros Hsp before email after Hc Hb He invalid.
    assert (first_invalid (candidates val) = Some email) as Hfi.
    { apply first_invalid_Some. eauto. }
    assert (forall u, handle_recipients body u = Return (Failure invalid))
      as Hrej.
    { intros u. rewrite Hspec, Hsp, Hfi. reflexivity. }
    split; [exact Hrej | exact (Hanswer _ Hrej)].
  - intros Hsp Hall u Hu updates.
    apply first_invalid_None in Hall.
    assert (validate body = Continue updates) as Hval.
    { unfold validate. rewrite Hu. simpl. rewrite Hspec, Hsp, Hall.
      reflexivity. }
    split; [exact Hval |].
    intros Hc Hs. erewrite update_Continue by eassumption.
    assert (dict_truthy updates = true) as ->.
    { apply dict_truthy_true. unfold updates. apply insert_non_empty. }
    rewrite Hc, Hs. reflexivity.
Qed.

(** C5, as the handler has it: after a successful update the validated
    fields [updates] of the request are written in one merging write when
    there are any, that is when sender or recipients is there, or a password
    that is not empty once trimmed; nothing is written otherwise.  The
    write holds fields of the request only, and a field the request does
    not hold, or holds as null, keeps its stored value. *)
Theorem C5_one_merge_write (w' : world) (msg : string) :
  update_notification_settings E w = (Returned (Success msg), w') ->
  exists updates,
    validate body = Continue updates
    /\ (yields_update body ->
        writes w' = updates :: writes w
        /\ store w' = Some (firestore.merge updates (store w)))
    /\ (~ yields_update body -> w' = w)
    /\ (forall k, is_Some (updates !! k) ->
          is_Some (present body k)
          /\ (k = "sender" \/ k = "password" \/ k = "recipients"))
    /\ (forall k, present body k = None -> field w' k = field w k).
Proof.
  intros Hup.
  destruct (validate body) as [r|updates] eqn:Hval.
  { destruct (validate_Return body r Hval) as [reason ->].
    erewrite update_Return in Hup by eassumption. congruence. }
  exists updates. split; [reflexivity |].
  pose proof (validate_yields_update body updates Hval) as Hy.
  pose proof (fun k => validate_only_present body updates k Hval) as Honly.
  erewrite update_Continue in Hup by eassumption.
  destruct (dict_truthy updates) eqn:Ht.
  - apply dict_truthy_true in Ht. apply Hy in Ht.
    destruct (client_error E); [congruence |].
    destruct (set_error E); [congruence |].
    injection Hup as _ <-. cbn [writes store].
    split; [tauto |]. split; [tauto |]. split; [exact Honly |].
    intros k Hk. unfold field at 1. cbn [store mbind option_bind].
    apply merge_frame.
    destruct (updates !! k) eqn:Hl; [| reflexivity].
    destruct (Honly k) as [[x Hx] _]; [eauto | congruence].
  - apply dict_truthy_false in Ht.
    injection Hup as _ <-.
    split; [| split; [| split]]; [| reflexivity | exact Honly | reflexivity].
    intros Hyes. apply Hy in Hyes. contradiction.
Qed.

(** C6: for a password that is there, with [val] its trimmed text:
    - a white space character in [val], which then has a character before
      it and one after it, makes block 2 return the password error and the
      handler reject the update without a write;
    - an empty [val] is skipped: block 2 leaves [updates] as it is, and the
      handler does what it does for the same body without the password,
      which is to succeed without a write when that body has no other
      field. *)
Theorem C6_password (v : jvalue) :
  present body "password" = Some v ->
  let val := Py.strip (py_str v) in
  let whitespaces := "Password must not contain whitespaces." in
  (Py.any_char Py.isspace val = true ->
     (forall u, handle_password body u = Return (Failure whitespaces))
     /\ (exists reason,
           update_notification_settings E w = (Returned (Failure reason), w))
     /\ (forall u, handle_sender body ∅ = Continue u ->
           update_notification_settings E w
           = (Returned (Failure whitespaces), w)))
  /\ (forall a c b, val = a +:+ String c b -> Py.isspace c = true ->
        a <> EmptyString /\ b <> EmptyString)
  /\ (val = EmptyString ->
      (forall u, handle_password body u = Continue u)
      /\ update_notification_settings E w =
           update_notification_settings
             (with_body E (delete "password" body)) w
      /\ (present body "sender" = None -> present body "recipients" = None ->
          update_notification_settings E w = (Returned success, w))).
Proof.
  intros Hp val whitespaces. split; [| split].
  - intros Hsp.
    assert (forall u, handle_password body u = Return (Failure whitespaces))
      as Hrej.
    { intros u. unfold handle_password. rewrite Hp. fold val.
      rewrite Hsp. reflexivity. }
    split; [exact Hrej |]. split.
    + destruct rejection_writes_nothing as (reason & Hup & _); [| eauto].
      right. left. exists ∅. eexists. apply Hrej.
    + intros u Hu. eapply update_Return; [eassumption |].
      unfold validate. rewrite Hu. simpl. rewrite Hrej. reflexivity.
  - intros a c b. apply strip_space_inside.
  - intros He.
    assert (forall u, handle_password body u = Continue u) as Hskip.
    { intros u. unfold handle_password. rewrite Hp. fold val.
      rewrite He. reflexivity. }
    split; [exact Hskip |].
    pose proof (validate_empty_password body v Hp He) as Hval.
    split.
    + destruct (validate body) as [r|updates] eqn:Hv.
      * erewrite !update_Return; eauto.
      * erewrite !update_Continue; eauto.
    + intros Hs Hr.
      assert (validate body = Continue ∅) as Hv.
      { unfold validate, handle_sender, handle_recipients.
        rewrite Hs, Hr. simpl. rewrite Hskip. reflexivity. }
      erewrite update_Continue by eassumption. reflexivity.
Qed.

(** C10: a recipients value that is there and empty once trimmed passes
    block 3 as the empty list; when the other fields pass and the store
    answers, the handler succeeds, the write holds [recipients = []] and the
    stored list is empty afterwards.  An empty password in the same request
    puts nothing into the write and keeps the stored password. *)
Theorem C10_empty_recipients_clear (v : jvalue) (u : gmap string fval) :
  present body "recipients" = Some v ->
  Py.strip (py_str v) = EmptyString ->
  and_then (handle_sender body ∅) (handle_password body) = Continue u ->
  client_error E = None -> set_error E = None ->
  exists w',
    update_notification_settings E w = (Returned success, w')
    /\ writes w' = <["recipients" := FArr []]> u :: writes w
    /\ field w' "recipients" = Some (FArr [])
    /\ (forall pw, present body "password" = Some pw ->
          Py.strip (py_str pw) = EmptyString ->
          u !! "password" = None /\ field w' "password" = field w "password").
Proof.
  intros Hp He Hu Hc Hs.
  assert (validate body = Continue (<["recipients" := FArr []]> u)) as Hval.
  { unfold validate. rewrite Hu. simpl.
    unfold handle_recipients. rewrite Hp. cbv zeta. rewrite He. reflexivity. }
  erewrite update_Continue by eassumption.
  assert (dict_truthy (<["recipients" := FArr []]> u) = true) as ->.
  { apply dict_truthy_true. apply insert_non_empty. }
  rewrite Hc, Hs. eexists. split; [reflexivity |].
  cbn [writes store]. split; [reflexivity |].
  unfold field at 1 2. cbn [store mbind option_bind].
  split.
  - unfold firestore.merge.
    erewrite lookup_union_Some_l; [reflexivity |]. apply lookup_insert_eq.
  - intros pw Hpw Hepw.
    pose proof (validate_Continue body _ Hval) as (_ & Hpass & _).
    rewrite lookup_insert_ne in Hpass by discriminate.
    unfold password_update in Hpass. rewrite Hpw in Hpass.
    cbn in Hpass. rewrite Hepw in Hpass. simpl in Hpass.
    split; [exact Hpass |].
    apply merge_frame. rewrite lookup_insert_ne by discriminate. exact Hpass.
Qed.

End UpdateRequest.

(** ** The theorems of the section on requests of the specification *)

Lemma C3_rejection_writes_nothing_witness :
  let body : gmap string jvalue :=
    <["sender" := JStr "a@b.com"]> {[ "password" := JStr "sec ret" ]} in
  let w := {| store := Some {[ "password" := FStr "pw" ]}; writes := [] |} in
  exists reason,
    update_notification_settings (quiet body) w = (Returned (Failure reason), w)
    /\ validation_reason reason.
Proof.
  intros body w.
  destruct (C3_rejection_writes_nothing (quiet body) body w eq_refl)
    as (reason & Hup & Hwhy & _).
  - right. left. exists ∅. eexists. vm_compute. reflexivity.
  - exists reason. split; assumption.
Defined.

Lemma C4_recipients_witness :
  let body : gmap string jvalue := {[ "recipients" := JStr "a@x.com,b@y.com" ]} in
  let updates : gmap string fval :=
    {[ "recipients" := FArr [FStr "a@x.com"; FStr "b@y.com"] ]} in
  validate body = Continue updates
  /\ update_notification_settings (quiet body) (World None []) =
       (Returned success, World (Some updates) [updates]).
Proof.
  intros body updates.
  destruct (C4_recipients (quiet body) body (World None []) eq_refl
              (JStr "a@x.com,b@y.com") eq_refl) as (_ & _ & H).
  destruct (H eq_refl) with (u := (∅ : gmap string fval)) as [Hv Hu].
  - apply first_invalid_None. reflexivity.
  - reflexivity.
  - split; [exact Hv |]. apply Hu; reflexivity.
Defined.

(** The requests of the specification on recipients: a space after the
    comma, and a second address without ["@"]. *)
Example recipients_rejected :
  validate {[ "recipients" := JStr "a@x.com, b@y.com" ]}
  = Return (Failure "Recipients must be comma-separated with NO spaces.")
  /\ validate {[ "recipients" := JStr "a@x.com,notanemail" ]}
     = Return (Failure "Invalid email in recipients: notanemail")
  /\ candidates "a@x.com,,a@x.com,b@y.com," = ["a@x.com"; "a@x.com"; "b@y.com"].
Proof. vm_compute. repeat split. Qed.

Lemma C5_one_merge_write_witness :
  let body : gmap string jvalue := {[ "sender" := JStr "new@e.com" ]} in
  let w := World (Some (<["password" := FStr "pw"]>
                          {[ "recipients" := FArr [FStr "a@x.com"] ]})) [] in
  let w' := snd (update_notification_settings (quiet body) w) in
  field w' "sender" = Some (FStr "new@e.com")
  /\ field w' "password" = Some (FStr "pw")
  /\ field w' "recipients" = Some (FArr [FStr "a@x.com"]).
Proof.
  intros body w w'.
  destruct (C5_one_merge_write (quiet body) body w eq_refl w'
              "Settings updated successfully")
    as (updates & _ & _ & _ & _ & Hframe).
  { vm_compute. reflexivity. }
  split; [reflexivity |].
  split; rewrite Hframe; reflexivity.
Defined.

(** C5 as it is worded fails for a request whose only field is an empty
    password: the field is present, the handler answers with success, and
    there is no write. *)
Lemma C5_counterexample :
  let body : gmap string jvalue := {[ "password" := JStr "" ]} in
  let w := World (Some {[ "password" := FStr "pw" ]}) [] in
  is_Some (body !! "password")
  /\ update_notification_settings (quiet body) w = (Returned success, w)
  /\ ~ exists updates,
         writes (snd (update_notification_settings (quiet body) w))
         = updates :: writes w.
Proof.
  intros body w.
  assert (update_notification_settings (quiet body) w = (Returned success, w))
    as Hup.
  { erewrite update_Continue; [| reflexivity |].
    2: { vm_compute. reflexivity. }
    reflexivity. }
  split; [eexists; reflexivity |].
  split; [exact Hup |].
  rewrite Hup. intros [updates H]. discriminate.
Qed.

Lemma C6_password_witness :
  let body : gmap string jvalue := {[ "password" := JStr " sec ret " ]} in
  let w := World (Some {[ "password" := FStr "pw" ]}) [] in
  update_notification_settings (quiet body) w
  = (Returned (Failure "Password must not contain whitespaces."), w).
Proof.
  intros body w.
  destruct (C6_password (quiet body) body w eq_refl (JStr " sec ret ") eq_refl)
    as [H _].
  destruct (H eq_refl) as (_ & _ & Hup).
  apply (Hup ∅). reflexivity.
Defined.

(** The passwords of the specification: trimmed and stored, and empty. *)
Example password_values :
  validate {[ "password" := JStr "  secret  " ]}
  = Continue {[ "password" := FStr "secret" ]}
  /\ validate {[ "password" := JStr "" ]} = Continue ∅.
Proof. vm_compute. repeat split. Qed.

Lemma C10_empty_recipients_clear_witness :
  let body : gmap string jvalue := {[ "recipients" := JStr "   " ]} in
  let w := World (Some {[ "recipients" := FArr [FStr "a@x.com"] ]}) [] in
  exists w',
    update_notification_settings (quiet body) w = (Returned success, w')
    /\ field w' "recipients" = Some (FArr []).
Proof.
  intros body w.
  destruct (C10_empty_recipients_clear (quiet body) body w eq_refl
              (JStr "   ") ∅ eq_refl eq_refl eq_refl eq_refl eq_refl)
    as (w' & Hup & _ & Hf & _).
  exists w'. split; assumption.
Defined.

(** ** Sender *)

(** The senders of the specification. *)
Example sender_values :
  validate {[ "sender" := JStr "a@b.com" ]}
  = Continue {[ "sender" := FStr "a@b.com" ]}
  /\ validate {[ "sender" := JStr "a,b@c.com" ]}
     = Return (Failure "Sender must be a single valid email address.")
  /\ validate {[ "sender" := JStr "not-an-email" ]}
     = Return (Failure "Sender must be a single valid email address.").
Proof. vm_compute. repeat split. Qed.

(** C1, at the input [sender = "a@b.com b@c.com"]: the text is trimmed as it
    is and holds a space after a first address, so the whole of it is not
    one address; the handler accepts it, answers with success and writes it
    as the sender. *)
Theorem C1_sender_with_text_after_address_is_stored (w : world) :
  let sender := "a@b.com b@c.com" in
  Py.strip sender = sender
  /\ Py.any_char Py.isspace sender = true
  /\ update_notification_settings (quiet {[ "sender" := JStr sender ]}) w
     = (Returned success,
        {| store := Some (firestore.merge {[ "sender" := FStr sender ]}
                            (store w));
           writes := {[ "sender" := FStr sender ]} :: writes w |}).
Proof.
  intros sender. split; [reflexivity |]. split; [reflexivity |].
  erewrite update_Continue; [| reflexivity |].
  2: { vm_compute. reflexivity. }
  reflexivity.
Qed.

(** ** Reading the settings *)

(** The read handler leaves the store and the list of writes as they are,
    and never raises. *)
Lemma get_notification_settings_total (E : env) (w : world) :
  exists r, get_notification_settings E w = (Returned r, w).
Proof.
  unfold get_notification_settings, try_except, bind, firestore.Client,
    firestore.get, may_raise, raise, ret, lift, bind.
  destruct (client_error E); [eauto |].
  destruct (get_error E); [eauto |].
  destruct (store w) as [data|]; [| eauto].
  destruct (default (FArr []) (data !! "recipients")); eauto.
  destruct (join_items 0 items); eauto.
Qed.

(** C8: when the client and [get] answer and the document is not there,
    the read handler returns the three empty settings, and the document is
    still not there and no write is recorded. *)
Theorem C8_read_missing_document (E : env) (ws : list (gmap string fval)) :
  client_error E = None -> get_error E = None ->
  get_notification_settings E {| store := None; writes := ws |}
  = (Returned (Settings (FStr "") (FStr "") ""),
     {| store := None; writes := ws |}).
Proof.
  intros Hc Hg.
  unfold get_notification_settings, try_except, bind, firestore.Client,
    firestore.get, may_raise, ret.
  rewrite Hc, Hg. reflexivity.
Qed.

Lemma C8_read_missing_document_witness :
  get_notification_settings (quiet ∅) {| store := None; writes := [] |}
  = (Returned (Settings (FStr "") (FStr "") ""),
     {| store := None; writes := [] |}).
Proof.
  apply (C8_read_missing_document (quiet ∅) []); reflexivity.
Defined.

(** ** The update handler never raises *)

Lemma update_notification_settings_total (E : env) (w : world) :
  exists r w', update_notification_settings E w = (Returned r, w').
Proof.
  destruct (request_json E) as [body|e] eqn:Hreq.
  - destruct (validate body) as [r|updates] eqn:Hval.
    + erewrite update_Return by eassumption. eauto.
    + erewrite update_Continue by eassumption.
      destruct (dict_truthy updates); [| eauto].
      destruct (client_error E); [eauto |].
      destruct (set_error E); eauto.
  - unfold update_notification_settings, try_except, bind, lift, ret.
    rewrite Hreq. eauto.
Qed.

(** ** Mentions *)

Lemma str_app_assoc (a b c : string) : (a +:+ b) +:+ c = a +:+ b +:+ c.
Proof. induction a as [|x a IH]; str_norm; congruence. Qed.

Lemma py_int_number (v : pyval) : is_number v = true -> is_Some (py_int v).
Proof.
  destruct v as [| b | n | f | s | t]; try discriminate; simpl; eauto.
  destruct f; try discriminate; eauto.
Qed.

(** *** What [int] gives for the cells *)

Lemma skip_nothing (p : ascii -> bool) (s : string) :
  Py.any_char p s = false -> rskip p (lskip p s) = s.
Proof.
  intros H. assert (lskip p s = s) as ->.
  { destruct s as [|c s]; [reflexivity |]. simpl in *.
    apply orb_false_iff in H as [-> _]. reflexivity. }
  induction s as [|c s IH]; [reflexivity |]. simpl in *.
  apply orb_false_iff in H as [Hc Hs]. rewrite (IH Hs).
  destruct s; [rewrite Hc |]; reflexivity.
Qed.

Lemma lskip_keeps (p q : ascii -> bool) (s : string) :
  (forall c, q c = true -> p c = false) ->
  Py.any_char q s = true -> Py.any_char q (lskip p s) = true.
Proof.
  intros Hpq. induction s as [|c s IH]; simpl; [discriminate |].
  destruct (p c) eqn:Hp; [| exact (fun H => H)].
  destruct (q c) eqn:Hq; [rewrite (Hpq c Hq) in Hp; discriminate |].
  exact IH.
Qed.

Lemma rskip_keeps (p q : ascii -> bool) (s : string) :
  (forall c, q c = true -> p c = false) ->
  Py.any_char q s = true -> Py.any_char q (rskip p s) = true.
Proof.
  intros Hpq. induction s as [|c s IH]; simpl; [discriminate |].
  intros H. apply orb_true_iff in H as [Hq | Hs].
  - destruct (rskip p s); simpl; [| rewrite Hq; reflexivity].
    rewrite (Hpq c Hq). simpl. rewrite Hq. reflexivity.
  - specialize (IH Hs). destruct (rskip p s) as [|x r]; [discriminate |].
    simpl in *. rewrite IH. apply orb_true_r.
Qed.

Lemma skip_blank (p : ascii -> bool) (s : string) :
  all_chars p s = true -> rskip p (lskip p s) = EmptyString.
Proof.
  induction s as [|c s IH]; simpl; [reflexivity |].
  intros H. apply andb_true_iff in H as [-> Hs]. exact (IH Hs).
Qed.

Lemma digits_value_digits (acc : Z) (after_digit : bool) (s : string) :
  all_chars is_digit s = true ->
  s <> EmptyString \/ after_digit = true ->
  digits_value acc after_digit s = Some (decimal_value acc s).
Proof.
  revert acc after_digit. induction s as [|c s IH]; intros acc b Hd Hne; simpl.
  - destruct Hne as [Hne | ->]; [contradiction | reflexivity].
  - simpl in Hd. apply andb_true_iff in Hd as [-> Hs].
    apply IH; auto.
Qed.

Lemma digit_count_digits (s : string) :
  all_chars is_digit s = true -> digit_count s = Z.of_nat (String.length s).
Proof.
  induction s as [|c s IH]; [reflexivity |].
  cbn [all_chars digit_count String.length]. intros H.
  apply andb_true_iff in H as [-> Hs]. rewrite (IH Hs). lia.
Qed.

Lemma digits_value_other (acc : Z) (after_digit : bool) (s : string) :
  Py.any_char (fun c => negb (is_digit c || Ascii.eqb c "_")) s = true ->
  digits_value acc after_digit s = None.
Proof.
  revert acc after_digit. induction s as [|c s IH]; intros acc b; simpl;
    [discriminate |].
  destruct (is_digit c); simpl; [apply IH |].
  destruct (Ascii.eqb c "_"); simpl; [| reflexivity].
  destruct b; [apply IH | reflexivity].
Qed.

Lemma parse_digits_other (s : string) :
  Py.any_char (fun c => negb (is_digit c || Ascii.eqb c "_")) s = true ->
  parse_digits s = None.
Proof.
  intros H. unfold parse_digits. rewrite (digits_value_other _ _ _ H).
  destruct (_ <? _)%Z; reflexivity.
Qed.

Lemma digit_not_sign (c : ascii) :
  is_digit c = true ->
  Ascii.eqb c "-" = false /\ Ascii.eqb c "+" = false /\ int_space c = false.
Proof.
  destruct c as [[] [] [] [] [] [] [] []]; intros H;
    try discriminate H; repeat split; reflexivity.
Qed.

Lemma any_char_mono (q q' : ascii -> bool) (s : string) :
  (forall c, q c = true -> q' c = true) ->
  Py.any_char q s = true -> Py.any_char q' s = true.
Proof.
  intros Hq. induction s as [|c s IH]; simpl; [discriminate |].
  intros H. apply orb_true_iff in H as [H | H].
  - rewrite (Hq c H). reflexivity.
  - rewrite (IH H). apply orb_true_r.
Qed.

Lemma digits_no_space (s : string) :
  all_chars is_digit s = true -> Py.any_char int_space s = false.
Proof.
  induction s as [|c s IH]; simpl; [reflexivity |].
  intros H. apply andb_true_iff in H as [Hc Hs].
  destruct (digit_not_sign c Hc) as (_ & _ & ->). exact (IH Hs).
Qed.

Lemma shiftl_floor (m : positive) (e a : Z) :
  float_floor m e a -> Z.shiftl (Z.pos m) e = a.
Proof.
  unfold float_floor. destruct (0 <=? e)%Z eqn:He.
  - intros ->. apply Z.shiftl_mul_pow2. lia.
  - intros [Hlo Hhi]. rewrite Z.shiftl_div_pow2 by lia.
    assert (0 < 2 ^ (- e))%Z as Hk by (apply Z.pow_pos_nonneg; lia).
    symmetry. apply Z.div_unique with (r := (Z.pos m - a * 2 ^ (- e))%Z); lia.
Qed.

(** [int] gives its number for a numeric cell. *)
Lemma py_int_numeric (sec : pyval) (n : Z) :
  numeric sec n -> py_int sec = Some n.
Proof.
  destruct 1 as [n | b | sign | sign m e a Hf | s Hne Hd Hlen];
    try reflexivity.
  - cbn [py_int]. rewrite (shiftl_floor m e a Hf). reflexivity.
  - cbn [py_int]. rewrite skip_nothing by (apply digits_no_space, Hd).
    destruct s as [|c digits]; [contradiction |].
    pose proof Hd as Hd'. cbn [all_chars] in Hd'.
    apply andb_true_iff in Hd' as [Hc _].
    destruct (digit_not_sign c Hc) as (-> & -> & _).
    unfold parse_digits. rewrite digit_count_digits by exact Hd.
    unfold int_max_str_digits.
    destruct (4300 <? _)%Z eqn:Hlim; [lia |].
    apply digits_value_digits; [exact Hd | left; discriminate].
Qed.

(** [int] raises for a cell that is null or not numeric. *)
Lemma py_int_not_numeric (sec : pyval) :
  not_numeric sec -> py_int sec = None.
Proof.
  destruct 1 as [| | sign | text | s Hb | s Hbad]; try reflexivity.
  - cbn [py_int]. rewrite skip_blank by exact Hb. reflexivity.
  - cbn [py_int].
    assert (forall c, negb (literal_char c) = true -> int_space c = false)
      as Hsp.
    { intros c Hc. apply negb_true_iff in Hc. unfold literal_char in Hc.
      apply orb_false_iff in Hc as [_ Hc]. exact Hc. }
    assert (forall c, negb (literal_char c) = true ->
                      negb (is_digit c || Ascii.eqb c "_") = true) as Hd.
    { intros c Hc. apply negb_true_iff in Hc. unfold literal_char in Hc.
      apply orb_false_iff in Hc as [Hc _].
      apply orb_false_iff in Hc as [Hc _].
      apply orb_false_iff in Hc as [Hc _].
      rewrite Hc. reflexivity. }
    pose proof (rskip_keeps int_space _ _ Hsp
                  (lskip_keeps int_space _ _ Hsp Hbad)) as Ht.
    destruct (rskip int_space (lskip int_space s)) as [|c digits];
      [discriminate |].
    assert (parse_digits (String c digits) = None) as Hall.
    { apply parse_digits_other. eapply any_char_mono; [exact Hd | exact Ht]. }
    assert (literal_char c = true -> parse_digits digits = None) as Htail.
    { intros Hc. apply parse_digits_other.
      eapply any_char_mono; [exact Hd |].
      simpl in Ht. rewrite Hc in Ht. exact Ht. }
    destruct (Ascii.eqb_spec c "-") as [->|_].
    { rewrite Htail by reflexivity. reflexivity. }
    destruct (Ascii.eqb_spec c "+") as [->|_].
    { apply Htail. reflexivity. }
    exact Hall.
Qed.

Lemma seconds_text_numeric (sec : pyval) (n : Z) :
  numeric sec n -> (Z.abs n < 10 ^ 4300)%Z ->
  seconds_text sec = Some (Py.str_of_Z n).
Proof.
  intros Hn Hlim. unfold seconds_text. rewrite (py_int_numeric sec n Hn).
  cbn [mbind option_bind]. unfold int_text, int_max_str_digits.
  apply Z.ltb_lt in Hlim. rewrite Hlim. reflexivity.
Qed.

Lemma seconds_text_not_numeric (sec : pyval) :
  not_numeric sec -> seconds_text sec = None.
Proof.
  intros Hn. unfold seconds_text. rewrite (py_int_not_numeric sec Hn).
  reflexivity.
Qed.

(** C2: for a row [r] and the record [shape r] made from it:
    - when [video_url] is there and [start_sec] is numeric, standing for
      the integer [n] (of at most 4300 digits), the link is the text of
      [video_url] followed by ["&t="], [n] and ["s"];
    - when [start_sec] is missing, null or not numeric, the link is the
      [video_url] of the record;
    - when [video_url] is missing, the link is null;
    - for every other [start_sec], the link has the suffix with the text of
      [int(start_sec)] when there is one, and is the [video_url] of the
      record when there is none. *)
Theorem C2_link_shaping (float_repr : spec_float -> string) (r : Row) :
  (forall url sec n,
     r !! "video_url" = Some url -> r !! "start_sec" = Some sec ->
     numeric sec n -> (Z.abs n < 10 ^ 4300)%Z ->
     link (shape float_repr r)
     = PStr (cell_str float_repr url +:+ "&t=" +:+ Py.str_of_Z n +:+ "s"))
  /\ (forall sec,
        r !! "start_sec" = None
        \/ (r !! "start_sec" = Some sec /\ not_numeric sec) ->
        link (shape float_repr r) = video_url (shape float_repr r))
  /\ (r !! "video_url" = None -> link (shape float_repr r) = PNone)
  /\ (forall url sec seconds,
        r !! "video_url" = Some url -> r !! "start_sec" = Some sec ->
        seconds_text sec = Some seconds ->
        link (shape float_repr r)
        = PStr (cell_str float_repr url +:+ "&t=" +:+ seconds +:+ "s"))
  /\ (forall sec,
        r !! "start_sec" = Some sec -> seconds_text sec = None ->
        link (shape float_repr r) = video_url (shape float_repr r)).
Proof.
  unfold shape, row_link, try_link, getattr. cbn [link video_url].
  assert (forall url sec seconds,
            r !! "video_url" = Some url -> r !! "start_sec" = Some sec ->
            seconds_text sec = Some seconds ->
            match (url ← r !! "video_url"; sec ← r !! "start_sec";
                   seconds ← seconds_text sec;
                   Some (cell_str float_repr url +:+ "&t=" +:+ seconds +:+ "s"))
            with
            | Some l => PStr l
            | None => default PNone (r !! "video_url")
            end
            = PStr (cell_str float_repr url +:+ "&t=" +:+ seconds +:+ "s"))
    as Hsome.
  { intros url sec seconds -> -> Hs. cbn [mbind option_bind].
    rewrite Hs. reflexivity. }
  assert (forall sec,
            r !! "start_sec" = Some sec -> seconds_text sec = None ->
            match (url ← r !! "video_url"; sec ← r !! "start_sec";
                   seconds ← seconds_text sec;
                   Some (cell_str float_repr url +:+ "&t=" +:+ seconds +:+ "s"))
            with
            | Some l => PStr l
            | None => default PNone (r !! "video_url")
            end
            = default PNone (r !! "video_url")) as Hnone.
  { intros sec -> Hs. destruct (r !! "video_url"); cbn [mbind option_bind];
      [rewrite Hs |]; reflexivity. }
  split; [| split; [| split; [| split]]].
  - intros url sec n Hu Hs Hn Hlim.
    apply (Hsome url sec _ Hu Hs). apply seconds_text_numeric; assumption.
  - intros sec [H | [H Hn]].
    + rewrite H. destruct (r !! "video_url"); reflexivity.
    + apply (Hnone sec H). apply seconds_text_not_numeric, Hn.
  - intros ->. reflexivity.
  - exact Hsome.
  - exact Hnone.
Qed.

Lemma C2_link_shaping_witness :
  let r1 : Row := <["video_url" := PStr "https://x/y"]> {[ "start_sec" := PInt 42 ]} in
  let r2 : Row := <["video_url" := PStr "https://x/y"]> {[ "start_sec" := PNone ]} in
  let r3 : Row := {[ "start_sec" := PInt 42 ]} in
  let r4 : Row :=
    <["video_url" := PStr "https://x/y"]>
      {[ "start_sec" := PFloat (S754_finite false 85 (-1)) ]} in
  link (shape (fun _ => EmptyString) r1) = PStr "https://x/y&t=42s"
  /\ link (shape (fun _ => EmptyString) r2) = PStr "https://x/y"
  /\ link (shape (fun _ => EmptyString) r3) = PNone
  /\ link (shape (fun _ => EmptyString) r4) = PStr "https://x/y&t=42s".
Proof.
  intros r1 r2 r3 r4. split; [| split; [| split]].
  - apply (proj1 (C2_link_shaping (fun _ => EmptyString) r1)
             (PStr "https://x/y") (PInt 42) 42%Z);
      [reflexivity | reflexivity | constructor | reflexivity].
  - apply (proj1 (proj2 (C2_link_shaping (fun _ => EmptyString) r2)) PNone).
    right. split; [reflexivity | constructor].
  - apply (proj1 (proj2 (proj2 (C2_link_shaping (fun _ => EmptyString) r3)))).
    reflexivity.
  - apply (proj1 (C2_link_shaping (fun _ => EmptyString) r4)
             (PStr "https://x/y") (PFloat (S754_finite false 85 (-1))) 42%Z);
      [reflexivity | reflexivity | | reflexivity].
    apply (numeric_float false 85 (-1) 42). unfold float_floor. simpl. lia.
Defined.

(** The link for some values of [start_sec]: a float is cut towards zero,
    a text of digits counts, with the white space [int] skips around it;
    a NaN, a word and a text with an ASCII separator, which [strip] would
    remove and [int] does not skip, do not count. *)
Example row_link_values :
  let row sec : Row := <["video_url" := PStr "u"]> {[ "start_sec" := sec ]} in
  let link_of sec := row_link (fun _ => EmptyString) (row sec) in
  link_of (PFloat (S754_finite false 85 (-1))) = PStr "u&t=42s"
  /\ link_of (PFloat (S754_finite true 85 (-1))) = PStr "u&t=-42s"
  /\ link_of (PStr "42") = PStr "u&t=42s"
  /\ link_of (PStr " +4_2 ") = PStr "u&t=42s"
  /\ link_of (PFloat S754_nan) = PStr "u"
  /\ link_of (PStr "soon") = PStr "u"
  /\ link_of (PStr (String "028" "42")) = PStr "u"
  /\ link_of (PStr "4__2") = PStr "u"
  /\ link_of (PInt (10 ^ 4300)) = PStr "u"
  /\ link_of (PBool true) = PStr "u&t=1s".
Proof. vm_compute. repeat split. Qed.

(** With a client, the handler runs [sql] with the one parameter and shapes
    the rows it gets. *)
Lemma get_recent_mentions_runs float_repr (P D T : string) (B : bq_env)
  (hours : Z) :
  bq_client_error B = None ->
  get_recent_mentions float_repr P D T B hours =
    match run_query B (sql P D T) [hours_parameter hours] with
    | Raised e => Raised e
    | Returned rows =>
        Returned {| count := length rows;
                    results := List.map (shape float_repr) rows |}
    end.
Proof.
  intros Hc. unfold get_recent_mentions. rewrite Hc. cbn [build_query fst snd].
  unfold query_parameters, hours_parameter.
  destruct (run_query B _ _); [| reflexivity].
  rewrite length_map. reflexivity.
Qed.

(** C7: for two hour counts from 1 on, the text of the query is the same;
    the hour count is the value of the one bound parameter [hours] of type
    INT64.  The text is, each line after a newline and a tab: the SELECT of
    the six columns, the FROM of the table, the WHERE that compares
    [created_at], cast to a timestamp, with [>] against the current time
    minus [@hours] hours, the ORDER BY [created_at] descending, and an
    empty line; nothing else is in it.  This text with this parameter is
    what the handler runs. *)
Theorem C7_hours_is_bound_parameter (P D T : string) (h1 h2 : Z) :
  (1 <= h1)%Z -> (1 <= h2)%Z ->
  let line (words : string) := String "010" (String "009" words) in
  fst (build_query P D T h1) = fst (build_query P D T h2)
  /\ snd (build_query P D T h1) = [hours_parameter h1]
  /\ fst (build_query P D T h1) =
       line "SELECT video_name, keyword, text, video_url, start_sec, created_at"
       +:+ line ("FROM `" +:+ P +:+ "." +:+ D +:+ "." +:+ T +:+ "`")
       +:+ line "WHERE CAST(created_at AS TIMESTAMP) > TIMESTAMP_SUB(CURRENT_TIMESTAMP(), INTERVAL @hours HOUR)"
       +:+ line "ORDER BY created_at DESC"
       +:+ line ""
  /\ (forall float_repr B, bq_client_error B = None ->
        get_recent_mentions float_repr P D T B h1 =
          match run_query B (fst (build_query P D T h1))
                  (snd (build_query P D T h1)) with
          | Raised e => Raised e
          | Returned rows =>
              Returned {| count := length rows;
                          results := List.map (shape float_repr) rows |}
          end).
Proof.
  intros _ _ line. split; [reflexivity |]. split; [reflexivity |]. split.
  - cbn [build_query fst]. unfold sql, table_id, line, nl, tab.
    repeat first [ rewrite str_app_assoc | rewrite str_app_cons
                 | rewrite str_app_nil ].
    reflexivity.
  - intros float_repr B Hc. apply get_recent_mentions_runs. exact Hc.
Qed.

Lemma C7_hours_is_bound_parameter_witness :
  fst (build_query "p" "d" "mentions" 1) = fst (build_query "p" "d" "mentions" 24)
  /\ snd (build_query "p" "d" "mentions" 1) = [hours_parameter 1].
Proof.
  destruct (C7_hours_is_bound_parameter "p" "d" "mentions" 1 24) as (H1 & H2 & _).
  - lia.
  - lia.
  - split; assumption.
Defined.

(** ** Errors *)

(** C9: the two settings handlers return a response for every behaviour of
    the outer world, none raises; an error of the client, of [get], of
    [request.json()] or of [set] is answered as [{ok: false, error: str(e)}]
    with the store as it was.  The mentions handler raises the error of
    the client or of the query to its caller. *)
Theorem C9_error_boundaries :
  (forall E w, exists r, get_notification_settings E w = (Returned r, w))
  /\ (forall E w, exists r w',
        update_notification_settings E w = (Returned r, w'))
  /\ (forall E w e,
        client_error E = Some e
        \/ (client_error E = None /\ get_error E = Some e) ->
        get_notification_settings E w = (Returned (Failure (str_exn e)), w))
  /\ (forall E w e,
        request_json E = Raised e ->
        update_notification_settings E w = (Returned (Failure (str_exn e)), w))
  /\ (forall E w body updates e,
        request_json E = Returned body -> validate body = Continue updates ->
        updates <> ∅ ->
        client_error E = Some e
        \/ (client_error E = None /\ set_error E = Some e) ->
        update_notification_settings E w = (Returned (Failure (str_exn e)), w))
  /\ (forall float_repr P D T B hours e,
        bq_client_error B = Some e
        \/ (bq_client_error B = None
            /\ run_query B (sql P D T) [hours_parameter hours] = Raised e) ->
        get_recent_mentions float_repr P D T B hours = Raised e).
Proof.
  split; [exact get_notification_settings_total |].
  split; [exact update_notification_settings_total |].
  split; [| split; [| split]].
  - intros E w e H.
    unfold get_notification_settings, try_except, bind, firestore.Client,
      firestore.get, may_raise, raise, ret.
    destruct H as [-> | [-> ->]]; reflexivity.
  - intros E w e H.
    unfold update_notification_settings, try_except, bind, lift, ret.
    rewrite H. reflexivity.
  - intros E w body updates e Hreq Hval Hne H.
    erewrite update_Continue by eassumption.
    apply dict_truthy_true in Hne. rewrite Hne.
    destruct H as [-> | [-> ->]]; reflexivity.
  - intros float_repr P D T B hours e [H | [Hc Hq]].
    + unfold get_recent_mentions. rewrite H. reflexivity.
    + rewrite get_recent_mentions_runs by assumption. rewrite Hq. reflexivity.
Qed.

Lemma C9_error_boundaries_witness :
  let e := Exception "503 service unavailable" in
  let E := {| request_json := Returned {[ "sender" := JStr "a@b.com" ]};
              client_error := None; get_error := Some e;
              set_error := Some e |} in
  let B := {| bq_client_error := None; run_query := fun _ _ => Raised e |} in
  let w := World None [] in
  get_notification_settings E w
    = (Returned (Failure "503 service unavailable"), w)
  /\ update_notification_settings E w
    = (Returned (Failure "503 service unavailable"), w)
  /\ get_recent_mentions (fun _ => EmptyString) "p" "d" "mentions" B 24
    = Raised e.
Proof.
  intros e E B w.
  destruct C9_error_boundaries as (_ & _ & Hget & _ & Hset & Hbq).
  split; [| split].
  - apply (Hget E w e). right. split; reflexivity.
  - apply (Hset E w {[ "sender" := JStr "a@b.com" ]}
             {[ "sender" := FStr "a@b.com" ]} e).
    + reflexivity.
    + vm_compute. reflexivity.
    + apply insert_non_empty.
    + right. split; reflexivity.
  - apply (Hbq (fun _ => EmptyString) "p" "d" "mentions" B 24%Z e).
    right. split; reflexivity.
Defined.

(** * Further properties of the handlers *)

(** ** More on the string primitives *)

Lemma any_char_app (p : ascii -> bool) (a b : string) :
  Py.any_char p (a +:+ b) = Py.any_char p a || Py.any_char p b.
Proof.
  induction a as [|x a IH]; str_norm; simpl; [reflexivity |].
  rewrite IH. apply orb_assoc.
Qed.

Lemma lstrip_any_char (p : ascii -> bool) (s : string) :
  Py.any_char p (Py.lstrip s) = true -> Py.any_char p s = true.
Proof.
  induction s as [|x s IH]; simpl; [discriminate |].
  destruct (Py.isspace x); [| exact (fun H => H)].
  intros H. rewrite (IH H). apply orb_true_r.
Qed.

Lemma rstrip_any_char (p : ascii -> bool) (s : string) :
  Py.any_char p (Py.rstrip s) = true -> Py.any_char p s = true.
Proof.
  induction s as [|x s IH]; simpl; [discriminate |].
  destruct (Py.rstrip s) as [|y r].
  - destruct (Py.isspace x); simpl; [discriminate |].
    rewrite orb_false_r. intros ->. reflexivity.
  - simpl in *. intros H. apply orb_true_iff in H as [-> | H]; [reflexivity |].
    rewrite (IH H). apply orb_true_r.
Qed.

(** What [strip] keeps was in the text. *)
Lemma strip_any_char (p : ascii -> bool) (s : string) :
  Py.any_char p (Py.strip s) = true -> Py.any_char p s = true.
Proof. intros H. apply lstrip_any_char, rstrip_any_char, H. Qed.

(** What a segment holds was in the text. *)
Lemma split_any_char (p : ascii -> bool) (sep : ascii) (s : string) :
  Forall (fun seg => Py.any_char p seg = true -> Py.any_char p s = true)
         (Py.split sep s).
Proof.
  induction s as [|c s IH]; simpl.
  - repeat constructor. discriminate.
  - destruct (Ascii.eqb c sep).
    + constructor; [discriminate |].
      eapply Forall_impl; [exact IH |]. simpl. intros seg H Hp.
      rewrite (H Hp). apply orb_true_r.
    + destruct (Py.split sep s) as [|seg segs].
      * repeat constructor. simpl. rewrite orb_false_r. intros ->. reflexivity.
      * inversion IH as [|? ? Hseg Hsegs]; subst. constructor.
        -- simpl. intros H. apply orb_true_iff in H as [-> | H]; [reflexivity |].
           rewrite (Hseg H). apply orb_true_r.
        -- eapply Forall_impl; [exact Hsegs |]. simpl. intros seg' H Hp.
           rewrite (H Hp). apply orb_true_r.
Qed.

Lemma lstrip_fixed (s : string) :
  (forall c t, s = String c t -> Py.isspace c = false) -> Py.lstrip s = s.
Proof.
  destruct s as [|x s]; [reflexivity |]. intros H. simpl.
  rewrite (H x s eq_refl). reflexivity.
Qed.

Lemma rstrip_fixed (s : string) :
  (forall a c, s = a +:+ String c EmptyString -> Py.isspace c = false) ->
  Py.rstrip s = s.
Proof.
  induction s as [|x s IH]; [reflexivity |]. intros H. simpl.
  rewrite IH.
  - destruct s; [| reflexivity].
    rewrite (H EmptyString x eq_refl). reflexivity.
  - intros a c ->. apply (H (String x a) c). reflexivity.
Qed.

Lemma strip_trimmed (s : string) : trimmed (Py.strip s).
Proof.
  unfold trimmed. unfold Py.strip at 1.
  rewrite lstrip_fixed.
  - apply rstrip_fixed. intros a c. apply rstrip_last.
  - intros c t. apply strip_head.
Qed.

Lemma trimmed_lstrip (s : string) : trimmed s -> Py.lstrip s = s.
Proof.
  intros H. apply lstrip_fixed. intros c t Hs.
  apply (strip_head s c t). rewrite H. exact Hs.
Qed.

Lemma trimmed_rstrip (s : string) : trimmed s -> Py.rstrip s = s.
Proof.
  intros H. pose proof H as H'. unfold trimmed, Py.strip in H'.
  rewrite (trimmed_lstrip s H) in H'. exact H'.
Qed.

Lemma str_app_not_nil (a b : string) :
  b <> EmptyString -> a +:+ b <> EmptyString.
Proof. destruct a; str_norm; [auto | discriminate]. Qed.

Lemma rstrip_app (a b : string) :
  Py.rstrip b <> EmptyString -> Py.rstrip (a +:+ b) = a +:+ Py.rstrip b.
Proof.
  intros Hb. induction a as [|x a IH]; str_norm; [reflexivity |].
  simpl. rewrite IH.
  pose proof (str_app_not_nil a _ Hb) as Hne.
  destruct (a +:+ Py.rstrip b); [contradiction | reflexivity].
Qed.

(** Joining trimmed texts that are not empty gives a trimmed text. *)
Lemma trimmed_join (sep : string) (l : list string) :
  Forall (fun e => e <> EmptyString /\ trimmed e) l ->
  trimmed (Py.join sep l).
Proof.
  induction 1 as [|e l [Hne He] Hl IH]; [reflexivity |].
  destruct l as [|e' l]; [exact He |].
  rewrite join_cons2. unfold trimmed, Py.strip.
  assert (Py.rstrip (Py.join sep (e' :: l)) = Py.join sep (e' :: l)) as Hr.
  { apply trimmed_rstrip, IH. }
  assert (Py.join sep (e' :: l) <> EmptyString) as Hj.
  { inversion Hl as [|? ? [Hne' _] _]; subst.
    destruct l; [exact Hne' |]. rewrite join_cons2.
    destruct e'; [contradiction | str_norm; discriminate]. }
  rewrite lstrip_fixed.
  - rewrite <- str_app_assoc. rewrite rstrip_app by congruence.
    rewrite Hr. reflexivity.
  - intros c t Hs. destruct e as [|x e]; [contradiction |].
    str_norm. injection Hs as <- _.
    apply (strip_head (String x e) x e). exact He.
Qed.

(** Splitting a joined list gives the list back, when no item holds the
    separator and there is an item. *)
Lemma split_one (sep : ascii) (a : string) :
  lacks sep a -> Py.split sep a = [a].
Proof.
  unfold lacks. induction a as [|x a IH]; simpl; [reflexivity |].
  intros H. apply orb_false_iff in H as [Hx Ha].
  rewrite Ascii.eqb_sym, Hx, (IH Ha). reflexivity.
Qed.

Lemma split_app_sep (sep : ascii) (a b : string) :
  lacks sep a ->
  Py.split sep (a +:+ String sep b) = a :: Py.split sep b.
Proof.
  unfold lacks. induction a as [|x a IH]; str_norm; simpl.
  - intros _. rewrite Ascii.eqb_refl. reflexivity.
  - intros H. apply orb_false_iff in H as [Hx Ha].
    rewrite Ascii.eqb_sym, Hx, (IH Ha). reflexivity.
Qed.

Lemma split_join (sep : ascii) (l : list string) :
  l <> [] -> Forall (lacks sep) l ->
  Py.split sep (Py.join (String sep EmptyString) l) = l.
Proof.
  intros Hne Hl. induction Hl as [|e l He Hl IH]; [contradiction |].
  destruct l as [|e' l].
  - apply split_one, He.
  - rewrite join_cons2. str_norm.
    rewrite split_app_sep by exact He. str_norm. rewrite IH by discriminate.
    reflexivity.
Qed.

(** ** What a successful update has checked and written *)

(** The checks the blocks have done when validation goes on to the write. *)
Lemma validate_Continue_checks body updates :
  validate body = Continue updates ->
  (forall v, present body "sender" = Some v ->
     Re.match_ Re.sender_pattern (Py.strip (py_str v)) = true
     /\ Py.contains "," (Py.strip (py_str v)) = false)
  /\ (forall v, present body "password" = Some v ->
        Py.any_char Py.isspace (Py.strip (py_str v)) = false)
  /\ (forall v, present body "recipients" = Some v ->
        Py.contains " " (Py.strip (py_str v)) = false
        /\ first_invalid (candidates (Py.strip (py_str v))) = None).
Proof.
  unfold validate. intros H.
  destruct (handle_sender body ∅) as [r1|u1] eqn:H1; [discriminate |].
  unfold and_then in H.
  destruct (handle_password body u1) as [r2|u2] eqn:H2; [discriminate |].
  split; [| split]; intros v Hv.
  - unfold handle_sender in H1. rewrite Hv in H1. cbv zeta in H1.
    destruct (negb _ || _) eqn:Hor; [discriminate |].
    apply orb_false_iff in Hor as [Hm Hc].
    apply negb_false_iff in Hm. auto.
  - unfold handle_password in H2. rewrite Hv in H2. cbv zeta in H2.
    destruct (Py.any_char _ _); [discriminate | reflexivity].
  - unfold handle_recipients in H. rewrite Hv in H. cbv zeta in H.
    rewrite email_list_of_candidates in H.
    destruct (Py.contains " " _); [discriminate |].
    destruct (first_invalid _); [discriminate |]. auto.
Qed.

(** A successful update: validation went on with some [updates], which
    were written unless they are empty. *)
Lemma update_success_inv E body w w' msg :
  request_json E = Returned body ->
  update_notification_settings E w = (Returned (Success msg), w') ->
  exists updates,
    validate body = Continue updates
    /\ forall k, field w' k = match updates !! k with
                              | Some x => Some x
                              | None => field w k
                              end.
Proof.
  intros Hreq Hup.
  destruct (validate body) as [r|updates] eqn:Hval.
  { destruct (validate_Return body r Hval) as [reason ->].
    erewrite update_Return in Hup by eassumption. congruence. }
  exists updates. split; [reflexivity |].
  erewrite update_Continue in Hup by eassumption.
  destruct (dict_truthy updates) eqn:Ht.
  - destruct (client_error E); [congruence |].
    destruct (set_error E); [congruence |].
    injection Hup as _ <-. intros k.
    destruct (updates !! k) as [x|] eqn:Hk.
    + unfold field, firestore.merge. cbn [store mbind option_bind].
      apply lookup_union_Some_l. exact Hk.
    + unfold field at 1. cbn [store mbind option_bind].
      apply merge_frame. exact Hk.
  - apply dict_truthy_false in Ht. injection Hup as _ <-.
    subst updates. intros k. rewrite lookup_empty. reflexivity.
Qed.

Lemma lacks_contains (c : ascii) (s : string) :
  Py.contains (String c EmptyString) s = false <-> lacks c s.
Proof. unfold lacks. rewrite contains_char. reflexivity. Qed.

Lemma any_char_false_mono (p : ascii -> bool) (s t : string) :
  (Py.any_char p s = true -> Py.any_char p t = true) ->
  Py.any_char p t = false -> Py.any_char p s = false.
Proof. intros H Ht. destruct (Py.any_char p s); [| reflexivity]. rewrite H in Ht; auto. Qed.

(** The addresses the third block lets through. *)
Lemma candidates_stored (val : string) :
  Py.contains " " val = false ->
  first_invalid (candidates val) = None ->
  Forall stored_address (candidates val).
Proof.
  intros Hsp Hfi. apply first_invalid_None in Hfi.
  apply lacks_contains in Hsp.
  apply List.Forall_forall. intros e He.
  pose proof (proj1 (List.Forall_forall _ _) Hfi e He) as Hat.
  unfold candidates in He.
  apply List.filter_In in He as [He Hne].
  apply List.in_map_iff in He as (seg & <- & Hseg).
  pose proof (proj1 (List.Forall_forall _ _) (split_no_sep "," val) seg Hseg)
    as Hcomma.
  pose proof (proj1 (List.Forall_forall _ _)
                (split_any_char (Ascii.eqb " ") "," val) seg Hseg) as Hspace.
  unfold stored_address. repeat split.
  - apply truthy_true, Hne.
  - apply strip_trimmed.
  - exact Hat.
  - eapply any_char_false_mono; [apply strip_any_char | exact Hcomma].
  - eapply any_char_false_mono; [apply strip_any_char |].
    eapply any_char_false_mono; [exact Hspace | exact Hsp].
Qed.

Lemma lacks_join (c : ascii) (sep : string) (l : list string) :
  lacks c sep -> Forall (lacks c) l -> lacks c (Py.join sep l).
Proof.
  unfold lacks. intros Hsep. induction 1 as [|e l He Hl IH]; [reflexivity |].
  destruct l as [|e' l]; [exact He |].
  rewrite join_cons2, !any_char_app, He, Hsep, IH. reflexivity.
Qed.

(** X1: after a successful update whose body has a sender, the stored
    sender is the trimmed text of the value; it is trimmed, has no comma,
    and starts with [l@d.t] for three runs without ["@"] and white space. *)
Theorem X1_stored_sender E body w w' msg v :
  request_json E = Returned body ->
  update_notification_settings E w = (Returned (Success msg), w') ->
  present body "sender" = Some v ->
  let val := Py.strip (py_str v) in
  field w' "sender" = Some (FStr val)
  /\ trimmed val /\ lacks "," val
  /\ exists l d t rest,
       val = l +:+ "@" +:+ d +:+ "." +:+ t +:+ rest
       /\ word l /\ word d /\ word t.
Proof.
  intros Hreq Hup Hv val.
  destruct (update_success_inv E body w w' msg Hreq Hup) as (u & Hval & Hf).
  pose proof (validate_Continue body u Hval) as (Hs & _).
  pose proof (validate_Continue_checks body u Hval) as (Hc & _).
  destruct (Hc v Hv) as [Hm Hcomma].
  split.
  - rewrite Hf, Hs. unfold sender_update. rewrite Hv. reflexivity.
  - split; [apply strip_trimmed |].
    split; [apply lacks_contains, Hcomma |].
    apply sender_pattern_spec, Hm.
Qed.

Lemma X1_stored_sender_witness :
  let body : gmap string jvalue := {[ "sender" := JStr "  a@b.com " ]} in
  let w' := snd (update_notification_settings (quiet body) (World None [])) in
  field w' "sender" = Some (FStr "a@b.com").
Proof.
  intros body w'.
  apply (X1_stored_sender (quiet body) body (World None []) w'
           "Settings updated successfully" (JStr "  a@b.com ")).
  - reflexivity.
  - vm_compute. reflexivity.
  - reflexivity.
Defined.

(** X2: after a successful update whose body has a password, a password
    that is not empty once trimmed is stored as the trimmed text, which
    holds no white space character; one that is empty once trimmed leaves
    the stored password as it was. *)
Theorem X2_stored_password E body w w' msg v :
  request_json E = Returned body ->
  update_notification_settings E w = (Returned (Success msg), w') ->
  present body "password" = Some v ->
  let val := Py.strip (py_str v) in
  Py.any_char Py.isspace val = false
  /\ (val <> EmptyString -> field w' "password" = Some (FStr val))
  /\ (val = EmptyString -> field w' "password" = field w "password").
Proof.
  intros Hreq Hup Hv val.
  destruct (update_success_inv E body w w' msg Hreq Hup) as (u & Hval & Hf).
  pose proof (validate_Continue body u Hval) as (_ & Hp & _).
  pose proof (validate_Continue_checks body u Hval) as (_ & Hc & _).
  unfold password_update in Hp. rewrite Hv in Hp. cbn in Hp. fold val in Hp.
  split; [exact (Hc v Hv) |].
  split; intros Hne; rewrite Hf, Hp.
  - apply truthy_true in Hne. rewrite Hne. reflexivity.
  - rewrite Hne. reflexivity.
Qed.

Lemma X2_stored_password_witness :
  let body : gmap string jvalue := {[ "password" := JStr "  secret  " ]} in
  let w := World (Some {[ "password" := FStr "pw" ]}) [] in
  let w' := snd (update_notification_settings (quiet body) w) in
  field w' "password" = Some (FStr "secret").
Proof.
  intros body w w'.
  destruct (X2_stored_password (quiet body) body w w'
              "Settings updated successfully" (JStr "  secret  "))
    as (_ & H & _).
  - reflexivity.
  - vm_compute. reflexivity.
  - reflexivity.
  - apply H. discriminate.
Defined.

(** X3: after a successful update whose body has recipients, the stored
    value is the list of candidates of the trimmed text, in their order;
    each stored address is not empty, trimmed, has an ["@"], and has no
    comma and no space, so the list joined with commas has no space. *)
Theorem X3_stored_recipients E body w w' msg v :
  request_json E = Returned body ->
  update_notification_settings E w = (Returned (Success msg), w') ->
  present body "recipients" = Some v ->
  let l := candidates (Py.strip (py_str v)) in
  field w' "recipients" = Some (FArr (FStr <$> l))
  /\ Forall stored_address l
  /\ lacks " " (Py.join "," l).
Proof.
  intros Hreq Hup Hv l.
  destruct (update_success_inv E body w w' msg Hreq Hup) as (u & Hval & Hf).
  pose proof (validate_Continue body u Hval) as (_ & _ & Hr & _).
  pose proof (validate_Continue_checks body u Hval) as (_ & _ & Hc).
  destruct (Hc v Hv) as [Hsp Hfi].
  pose proof (candidates_stored _ Hsp Hfi) as Hall. fold l in Hall.
  split.
  - rewrite Hf, Hr. unfold recipients_update. rewrite Hv. cbn.
    rewrite email_list_of_candidates. reflexivity.
  - split; [exact Hall |].
    apply lacks_join; [reflexivity |].
    eapply Forall_impl; [exact Hall |].
    intros e (_ & _ & _ & _ & He). exact He.
Qed.

Lemma X3_stored_recipients_witness :
  let body : gmap string jvalue := {[ "recipients" := JStr "a@x.com,,b@y.com," ]} in
  let w' := snd (update_notification_settings (quiet body) (World None [])) in
  field w' "recipients" = Some (FArr [FStr "a@x.com"; FStr "b@y.com"]).
Proof.
  intros body w'.
  apply (X3_stored_recipients (quiet body) body (World None []) w'
           "Settings updated successfully" (JStr "a@x.com,,b@y.com,")).
  - reflexivity.
  - vm_compute. reflexivity.
  - reflexivity.
Defined.

(** ** Reading a document that exists *)

Lemma join_items_strings (i : nat) (ss : list string) :
  join_items i (FStr <$> ss) = Returned ss.
Proof.
  revert i. induction ss as [|s ss IH]; intros i; simpl; [reflexivity |].
  rewrite IH. reflexivity.
Qed.

(** The error of the join names the place and the type of the first item
    that is not a string. *)
Lemma join_items_not_string (i : nat) (ss : list string) (v : fval)
  (rest : list fval) :
  (forall s, v <> FStr s) ->
  join_items i ((FStr <$> ss) ++ v :: rest) =
    Raised (Exception ("sequence item " +:+ Py.str_of_nat (i + length ss)
                       +:+ ": expected str instance, "
                       +:+ type_name v +:+ " found")).
Proof.
  intros Hv. revert i. induction ss as [|s ss IH]; intros i.
  - cbn [fmap list_fmap app length]. rewrite Nat.add_0_r.
    destruct v; try reflexivity. destruct (Hv s). reflexivity.
  - cbn [fmap list_fmap app length join_items].
    change (list_fmap string fval FStr ss) with (FStr <$> ss).
    rewrite IH. rewrite Nat.add_succ_r. reflexivity.
Qed.

Lemma get_existing E data ws :
  client_error E = None -> get_error E = None ->
  get_notification_settings E {| store := Some data; writes := ws |} =
    let w := {| store := Some data; writes := ws |} in
    match default (FArr []) (data !! "recipients") with
    | FArr l =>
        match join_items 0 l with
        | Returned ss =>
            (Returned (Settings (default (FStr "") (data !! "sender"))
                                (default (FStr "") (data !! "password"))
                                (Py.join "," ss)), w)
        | Raised e => (Returned (Failure (str_exn e)), w)
        end
    | _ => (Returned (Settings (default (FStr "") (data !! "sender"))
                               (default (FStr "") (data !! "password"))
                               ""), w)
    end.
Proof.
  intros Hc Hg.
  unfold get_notification_settings, try_except, firestore.Client,
    firestore.get, may_raise, ret, lift, bind.
  rewrite Hc, Hg. cbn [store].
  destruct (default (FArr []) (data !! "recipients")) as [| | | |items];
    try reflexivity.
  destruct (join_items 0 items); reflexivity.
Qed.

(** X4: reading a document that exists, when the client and [get] answer:
    a field [sender] or [password] that is missing is given as the empty
    string and one that is there as it is stored; [recipients] is given as
    the stored strings joined with commas, and as the empty string when the
    field is missing or is not an array.  The store is left as it is. *)
Theorem X4_read_existing_document E data ws :
  client_error E = None -> get_error E = None ->
  let w := {| store := Some data; writes := ws |} in
  let answer csv :=
    (Returned (Settings (default (FStr "") (data !! "sender"))
                        (default (FStr "") (data !! "password")) csv), w) in
  (forall ss, data !! "recipients" = Some (FArr (FStr <$> ss)) ->
     get_notification_settings E w = answer (Py.join "," ss))
  /\ (data !! "recipients" = None ->
      get_notification_settings E w = answer EmptyString)
  /\ (forall v, data !! "recipients" = Some v ->
        (forall items, v <> FArr items) ->
        get_notification_settings E w = answer EmptyString).
Proof.
  intros Hc Hg w answer. unfold w, answer.
  split; [| split].
  - intros ss Hr. rewrite get_existing by assumption. rewrite Hr. cbn.
    rewrite join_items_strings. reflexivity.
  - intros Hr. rewrite get_existing by assumption. rewrite Hr. reflexivity.
  - intros v Hr Hv. rewrite get_existing by assumption. rewrite Hr. cbn.
    destruct v as [| | | |items]; try reflexivity.
    destruct (Hv items). reflexivity.
Qed.

Lemma X4_read_existing_document_witness :
  let data : gmap string fval :=
    <["sender" := FStr "a@b.com"]>
      {[ "recipients" := FArr [FStr "a@x.com"; FStr "b@y.com"] ]} in
  get_notification_settings (quiet ∅) (World (Some data) [])
  = (Returned (Settings (FStr "a@b.com") (FStr "") "a@x.com,b@y.com"),
     World (Some data) []).
Proof.
  intros data.
  destruct (X4_read_existing_document (quiet ∅) data [] eq_refl eq_refl)
    as (H & _).
  apply (H ["a@x.com"; "b@y.com"]). reflexivity.
Defined.

(** X5: when the stored [recipients] array holds an item that is not a
    string, the read handler answers [{ok: false, error: ...}] with the
    message of the [TypeError] of [join], which gives the place of the first
    such item and its type; nothing is raised and the store is left as it
    is. *)
Theorem X5_read_array_with_non_string E data ws ss v rest :
  client_error E = None -> get_error E = None ->
  data !! "recipients" = Some (FArr ((FStr <$> ss) ++ v :: rest)) ->
  (forall s, v <> FStr s) ->
  let w := {| store := Some data; writes := ws |} in
  get_notification_settings E w =
    (Returned (Failure ("sequence item " +:+ Py.str_of_nat (length ss)
                        +:+ ": expected str instance, "
                        +:+ type_name v +:+ " found")), w).
Proof.
  intros Hc Hg Hr Hv w. unfold w.
  rewrite get_existing by assumption. rewrite Hr. cbn.
  rewrite join_items_not_string by exact Hv. reflexivity.
Qed.

Lemma X5_read_array_with_non_string_witness :
  let data : gmap string fval :=
    {[ "recipients" := FArr [FStr "a@x.com"; FInt 7; FStr "b@y.com"] ]} in
  get_notification_settings (quiet ∅) (World (Some data) [])
  = (Returned (Failure "sequence item 1: expected str instance, int found"),
     World (Some data) []).
Proof.
  intros data.
  apply (X5_read_array_with_non_string (quiet ∅) data [] ["a@x.com"] (FInt 7)
           [FStr "b@y.com"]); try reflexivity.
  intros s. discriminate.
Defined.

(** ** Writing, then reading *)

Lemma no_space_trimmed (s : string) :
  Py.any_char Py.isspace s = false -> trimmed s.
Proof.
  intros H. unfold trimmed, Py.strip. rewrite lstrip_fixed.
  - apply rstrip_fixed. intros a c ->.
    rewrite any_char_app in H. apply orb_false_iff in H as [_ H].
    simpl in H. rewrite orb_false_r in H. exact H.
  - intros c t ->. simpl in H. apply orb_false_iff in H as [H _]. exact H.
Qed.

(** A text without white space and without empty segment is the join of
    its candidates. *)
Lemma candidates_join_normal (val : string) :
  Py.any_char Py.isspace val = false ->
  Forall (fun seg => seg <> EmptyString) (Py.split "," val) ->
  Py.join "," (candidates val) = val.
Proof.
  intros Hsp Hne.
  assert (candidates val = Py.split "," val) as ->; [| apply join_split].
  unfold candidates.
  pose proof (split_any_char Py.isspace "," val) as Hsub.
  induction (Py.split "," val) as [|seg segs IH]; [reflexivity |].
  inversion Hsub as [|? ? Hseg Hsegs]; subst.
  inversion Hne as [|? ? Hseg' Hsegs']; subst.
  assert (Py.strip seg = seg) as Hfix.
  { apply no_space_trimmed. eapply any_char_false_mono; eassumption. }
  simpl. rewrite Hfix.
  destruct seg; [contradiction |]. simpl. rewrite IH by assumption.
  reflexivity.
Qed.

(** X6: a successful update whose body has recipients, followed by a read
    during which the client and [get] answer: the read gives the candidates
    of the trimmed recipients text joined with commas, which is that text
    itself when it holds no white space and no empty segment; it gives the
    trimmed sender of the body, and the trimmed password when that is not
    empty. *)
Theorem X6_update_then_read E E' body w w' msg v :
  request_json E = Returned body ->
  update_notification_settings E w = (Returned (Success msg), w') ->
  present body "recipients" = Some v ->
  client_error E' = None -> get_error E' = None ->
  let val := Py.strip (py_str v) in
  get_notification_settings E' w' =
    (Returned (Settings (default (FStr "") (field w' "sender"))
                        (default (FStr "") (field w' "password"))
                        (Py.join "," (candidates val))), w')
  /\ (Py.any_char Py.isspace val = false ->
      Forall (fun seg => seg <> EmptyString) (Py.split "," val) ->
      Py.join "," (candidates val) = val)
  /\ (forall vs, present body "sender" = Some vs ->
        field w' "sender" = Some (FStr (Py.strip (py_str vs))))
  /\ (forall vp, present body "password" = Some vp ->
        Py.strip (py_str vp) <> EmptyString ->
        field w' "password" = Some (FStr (Py.strip (py_str vp)))).
Proof.
  intros Hreq Hup Hv Hc Hg val.
  destruct (update_success_inv E body w w' msg Hreq Hup) as (u & Hval & Hf).
  pose proof (validate_Continue body u Hval) as (Hs & Hp & Hr & _).
  assert (field w' "recipients" = Some (FArr (FStr <$> candidates val))) as Hrec.
  { rewrite Hf, Hr. unfold recipients_update. rewrite Hv. cbn.
    rewrite email_list_of_candidates. reflexivity. }
  split; [| split; [| split]].
  - destruct w' as [[data|] ws]; [| discriminate].
    unfold field in *. cbn [store mbind option_bind] in *.
    rewrite get_existing by assumption. cbv zeta. rewrite Hrec.
    cbn [default from_option id]. rewrite join_items_strings. reflexivity.
  - apply candidates_join_normal.
  - intros vs Hvs. rewrite Hf, Hs. unfold sender_update. rewrite Hvs.
    reflexivity.
  - intros vp Hvp Hne. rewrite Hf, Hp. unfold password_update. rewrite Hvp.
    cbn. apply truthy_true in Hne. rewrite Hne. reflexivity.
Qed.

Lemma X6_update_then_read_witness :
  let body : gmap string jvalue :=
    <["sender" := JStr " a@b.com "]> {[ "recipients" := JStr "a@x.com,b@y.com" ]} in
  let w' := snd (update_notification_settings (quiet body) (World None [])) in
  get_notification_settings (quiet ∅) w'
  = (Returned (Settings (FStr "a@b.com") (FStr "") "a@x.com,b@y.com"), w').
Proof.
  intros body w'.
  refine (proj1 (X6_update_then_read (quiet body) (quiet ∅) body
                   (World None []) w' "Settings updated successfully"
                   (JStr "a@x.com,b@y.com") _ _ _ _ _)); reflexivity.
Defined.

(** ** Sending the validated fields back *)

Lemma strings_of_strings (l : list string) : strings_of (FStr <$> l) = l.
Proof.
  unfold strings_of. induction l as [|s l IH]; [reflexivity |].
  cbn. rewrite IH. reflexivity.
Qed.

Lemma resubmitted_present (updates : gmap string fval) (k : string) :
  present (resubmitted updates) k = (fun v => JStr (as_text v)) <$> updates !! k.
Proof.
  unfold present, resubmitted. rewrite lookup_fmap.
  destruct (updates !! k); reflexivity.
Qed.

Lemma strip_strip (s : string) : Py.strip (Py.strip s) = Py.strip s.
Proof. exact (strip_trimmed s). Qed.

(** Stored addresses, joined with commas, are read again as themselves. *)
Lemma candidates_rejoin (l : list string) :
  Forall stored_address l ->
  let text := Py.join "," l in
  Py.strip text = text
  /\ Py.contains " " text = false
  /\ candidates text = l.
Proof.
  intros Hl text. split; [| split].
  - apply trimmed_join. eapply Forall_impl; [exact Hl |].
    intros e (Hne & Ht & _). auto.
  - apply lacks_contains. apply lacks_join; [reflexivity |].
    eapply Forall_impl; [exact Hl |]. intros e (_ & _ & _ & _ & He). exact He.
  - destruct l as [|e l]; [reflexivity |].
    unfold candidates, text. rewrite split_join.
    + clear text. induction Hl as [|x xs (Hne & Ht & _) Hxs IH]; [reflexivity |].
      simpl. rewrite Ht. destruct x; [contradiction |]. simpl. rewrite IH.
      reflexivity.
    + discriminate.
    + eapply Forall_impl; [exact Hl |]. intros x (_ & _ & _ & Hx & _). exact Hx.
Qed.

(** Validation goes on to the write when the checks of the three blocks
    hold for the fields that are there. *)
Lemma validate_of_checks body :
  (forall v, present body "sender" = Some v ->
     Re.match_ Re.sender_pattern (Py.strip (py_str v)) = true
     /\ Py.contains "," (Py.strip (py_str v)) = false) ->
  (forall v, present body "password" = Some v ->
     Py.any_char Py.isspace (Py.strip (py_str v)) = false) ->
  (forall v, present body "recipients" = Some v ->
     Py.contains " " (Py.strip (py_str v)) = false
     /\ first_invalid (candidates (Py.strip (py_str v))) = None) ->
  exists updates, validate body = Continue updates.
Proof.
  intros Hs Hp Hr.
  unfold validate, handle_sender, handle_password, handle_recipients.
  destruct (present body "sender") as [vs|].
  - destruct (Hs vs eq_refl) as [-> ->]. cbn [negb orb and_then].
    destruct (present body "password") as [vp|].
    + rewrite (Hp vp eq_refl).
      destruct (Py.truthy _); cbn [and_then];
        (destruct (present body "recipients") as [vr|]; [| eauto];
         destruct (Hr vr eq_refl) as [-> Hfi];
         rewrite email_list_of_candidates, Hfi; eauto).
    + cbn [and_then].
      destruct (present body "recipients") as [vr|]; [| eauto].
      destruct (Hr vr eq_refl) as [-> Hfi].
      rewrite email_list_of_candidates, Hfi. eauto.
  - cbn [and_then].
    destruct (present body "password") as [vp|].
    + rewrite (Hp vp eq_refl).
      destruct (Py.truthy _); cbn [and_then];
        (destruct (present body "recipients") as [vr|]; [| eauto];
         destruct (Hr vr eq_refl) as [-> Hfi];
         rewrite email_list_of_candidates, Hfi; eauto).
    + cbn [and_then].
      destruct (present body "recipients") as [vr|]; [| eauto].
      destruct (Hr vr eq_refl) as [-> Hfi].
      rewrite email_list_of_candidates, Hfi. eauto.
Qed.

(** X7: the validator is idempotent on what it has validated: when the
    validation of a body goes on to the write with [updates], the body that
    sends these fields back as texts, the recipients joined with commas, is
    validated to the same [updates]. *)
Theorem X7_validate_idempotent body updates :
  validate body = Continue updates ->
  validate (resubmitted updates) = Continue updates.
Proof.
  intros Hval.
  pose proof (validate_Continue body updates Hval) as (Hs & Hp & Hr & Ho).
  pose proof (validate_Continue_checks body updates Hval) as (Cs & Cp & Cr).
  unfold sender_update, password_update, recipients_update in *.
  (* what each field of the new body is *)
  assert (forall v', present (resubmitted updates) "sender" = Some v' ->
            exists v, present body "sender" = Some v
                      /\ Py.strip (py_str v') = Py.strip (py_str v)) as Ps.
  { intros v'. rewrite resubmitted_present, Hs.
    destruct (present body "sender") as [v|]; [| discriminate].
    cbn. intros [= <-]. exists v. split; [reflexivity |]. apply strip_trimmed. }
  assert (forall v', present (resubmitted updates) "password" = Some v' ->
            exists v, present body "password" = Some v
                      /\ Py.strip (py_str v) <> EmptyString
                      /\ Py.strip (py_str v') = Py.strip (py_str v)) as Pp.
  { intros v'. rewrite resubmitted_present, Hp.
    destruct (present body "password") as [v|]; [| discriminate].
    cbn. destruct (Py.truthy (Py.strip (py_str v))) eqn:Ht; [| discriminate].
    cbn. intros [= <-]. exists v. split; [reflexivity |].
    split; [apply truthy_true, Ht | apply strip_trimmed]. }
  assert (forall v', present (resubmitted updates) "recipients" = Some v' ->
            exists v, present body "recipients" = Some v
                      /\ v' = JStr (Py.join "," (candidates (Py.strip (py_str v)))))
    as Pr.
  { intros v'. rewrite resubmitted_present, Hr.
    destruct (present body "recipients") as [v|]; [| discriminate].
    cbn. rewrite email_list_of_candidates, strings_of_strings.
    intros [= <-]. eauto. }
  destruct (validate_of_checks (resubmitted updates)) as [updates' Hval'].
  { intros v' Hv'. destruct (Ps v' Hv') as (v & Hv & ->). auto. }
  { intros v' Hv'. destruct (Pp v' Hv') as (v & Hv & _ & ->). auto. }
  { intros v' Hv'. destruct (Pr v' Hv') as (v & Hv & ->).
    destruct (Cr v Hv) as [Hsp Hfi].
    destruct (candidates_rejoin _ (candidates_stored _ Hsp Hfi))
      as (Ht & Hsp' & Hc).
    cbn [py_str]. rewrite Ht, Hc. auto. }
  rewrite Hval'. f_equal.
  pose proof (validate_Continue _ updates' Hval') as (Hs' & Hp' & Hr' & Ho').
  unfold sender_update, password_update, recipients_update in *.
  apply map_eq. intros k.
  destruct (decide (k = "sender")) as [->|?].
  { rewrite Hs', Hs, resubmitted_present, Hs.
    destruct (present body "sender"); [| reflexivity].
    cbn -[Py.strip]. rewrite strip_strip. reflexivity. }
  destruct (decide (k = "password")) as [->|?].
  { rewrite Hp', Hp, resubmitted_present, Hp.
    destruct (present body "password") as [v|]; [| reflexivity].
    cbn -[Py.strip].
    destruct (Py.truthy (Py.strip (py_str v))) eqn:Ht; [| reflexivity].
    cbn -[Py.strip]. rewrite strip_strip, Ht. reflexivity. }
  destruct (decide (k = "recipients")) as [->|?].
  { rewrite Hr', Hr, resubmitted_present, Hr.
    destruct (present body "recipients") as [v|] eqn:Hv; [| reflexivity].
    cbn -[Py.strip]. rewrite !email_list_of_candidates, strings_of_strings.
    destruct (Cr v eq_refl) as [Hsp Hfi].
    destruct (candidates_rejoin _ (candidates_stored _ Hsp Hfi))
      as (Ht & _ & Hc).
    rewrite Ht, Hc. reflexivity. }
  rewrite Ho', Ho by assumption. reflexivity.
Qed.

Lemma X7_validate_idempotent_witness :
  let updates : gmap string fval :=
    <["sender" := FStr "a@b.com"]>
      {[ "recipients" := FArr [FStr "a@x.com"; FStr "b@y.com"] ]} in
  validate (resubmitted updates) = Continue updates.
Proof.
  intros updates.
  apply (X7_validate_idempotent
           (<["sender" := JStr " a@b.com"]>
              {[ "recipients" := JStr "a@x.com,,b@y.com" ]})).
  vm_compute. reflexivity.
Defined.

(** ** Which fields the update handler looks at *)

(** Validation depends on the body through the three fields only, each
    taken as missing when it is null. *)
Lemma validate_ext (b1 b2 : gmap string jvalue) :
  present b1 "sender" = present b2 "sender" ->
  present b1 "password" = present b2 "password" ->
  present b1 "recipients" = present b2 "recipients" ->
  validate b1 = validate b2.
Proof.
  intros Hs Hp Hr.
  unfold validate, handle_sender, handle_password, handle_recipients.
  rewrite Hs, Hp, Hr. reflexivity.
Qed.

Lemma update_ext E (b1 b2 : gmap string jvalue) w :
  validate b1 = validate b2 ->
  update_notification_settings (with_body E b1) w
  = update_notification_settings (with_body E b2) w.
Proof.
  intros Hv. destruct (validate b2) as [r|updates] eqn:H2.
  - erewrite !update_Return; eauto.
  - erewrite !update_Continue; eauto.
Qed.

Lemma present_insert_ne (body : gmap string jvalue) (k k' : string) v :
  k <> k' -> present (<[k := v]> body) k' = present body k'.
Proof.
  intros Hne. unfold present. rewrite lookup_insert_ne by assumption.
  reflexivity.
Qed.

Lemma present_insert_null (body : gmap string jvalue) (k : string) :
  present (<[k := JNull]> body) k = None.
Proof. unfold present. rewrite lookup_insert_eq. reflexivity. Qed.

(** X8: a field of the body other than [sender], [password] and
    [recipients] changes nothing: the handler answers and writes as for the
    body without it.  A field that is null is handled as a field that is
    missing. *)
Theorem X8_other_and_null_fields_ignored E (body : gmap string jvalue) w :
  (forall k v, k <> "sender" -> k <> "password" -> k <> "recipients" ->
     update_notification_settings (with_body E (<[k := v]> body)) w
     = update_notification_settings (with_body E body) w)
  /\ (forall k,
        update_notification_settings (with_body E (<[k := JNull]> body)) w
        = update_notification_settings (with_body E (delete k body)) w).
Proof.
  split.
  - intros k v Hs Hp Hr. apply update_ext.
    apply validate_ext; apply present_insert_ne; assumption.
  - intros k. apply update_ext.
    apply validate_ext;
      match goal with
      | |- present _ ?f = _ =>
          destruct (decide (k = f)) as [->|Hne];
          [ rewrite present_insert_null, present_delete_eq; reflexivity
          | rewrite present_insert_ne, present_delete_ne by assumption;
            reflexivity ]
      end.
Qed.

(** X9: a request with nothing to update, that is without sender and
    recipients (missing or null) and with a password that is missing, null
    or empty once trimmed, is answered with success without any call to the
    store: the answer is the same when the client or [set] would fail, and
    nothing is written. *)
Theorem X9_nothing_to_update_skips_the_store E body w :
  request_json E = Returned body ->
  present body "sender" = None ->
  present body "recipients" = None ->
  (forall v, present body "password" = Some v ->
     Py.strip (py_str v) = EmptyString) ->
  update_notification_settings E w = (Returned success, w).
Proof.
  intros Hreq Hs Hr Hp.
  assert (validate body = Continue ∅) as Hval.
  { unfold validate, handle_sender, handle_password, handle_recipients.
    rewrite Hs, Hr. cbn [and_then].
    destruct (present body "password") as [v|]; [| reflexivity].
    cbv zeta. rewrite (Hp v eq_refl). reflexivity. }
  erewrite update_Continue by eassumption. reflexivity.
Qed.

Lemma X9_nothing_to_update_skips_the_store_witness :
  let body : gmap string jvalue :=
    <["sender" := JNull]> (<["password" := JStr "  "]> {[ "note" := JStr "x" ]}) in
  let down := Some (Exception "503 service unavailable") in
  let E := {| request_json := Returned body; client_error := down;
              get_error := down; set_error := down |} in
  let w := World (Some {[ "password" := FStr "pw" ]}) [] in
  update_notification_settings E w = (Returned success, w).
Proof.
  intros body down E w.
  apply (X9_nothing_to_update_skips_the_store E body w); try reflexivity.
  intros v Hv. vm_compute in Hv. injection Hv as <-. reflexivity.
Defined.

(** ** The order of the checks *)

(** X10: the reason of a rejection is the one of the first field, in the
    order sender, password, recipients, whose block rejects: the sender
    message when the sender is rejected, whatever the other fields hold;
    the password message when the sender passes and the password is
    rejected.  A sender that is empty once trimmed is rejected. *)
Theorem X10_first_rejection_is_reported E body w :
  request_json E = Returned body ->
  (rejects handle_sender body ->
     update_notification_settings E w =
       (Returned (Failure "Sender must be a single valid email address."), w))
  /\ (~ rejects handle_sender body -> rejects handle_password body ->
      update_notification_settings E w =
        (Returned (Failure "Password must not contain whitespaces."), w))
  /\ (forall v, present body "sender" = Some v ->
        Py.strip (py_str v) = EmptyString -> rejects handle_sender body).
Proof.
  intros Hreq. split; [| split].
  - intros (u & r & H). apply handle_sender_Return in H as [-> H].
    eapply update_Return; [eassumption |].
    unfold validate. rewrite H. reflexivity.
  - intros Hns (u & r & H). apply handle_password_Return in H as [-> H].
    eapply update_Return; [eassumption |].
    unfold validate.
    destruct (handle_sender body ∅) as [r1|u1] eqn:H1.
    + destruct Hns. exists ∅, r1. exact H1.
    + cbn [and_then]. rewrite H. reflexivity.
  - intros v Hv He. exists ∅. eexists.
    unfold handle_sender. rewrite Hv. cbv zeta. rewrite He. reflexivity.
Qed.

Lemma X10_first_rejection_is_reported_witness :
  let body : gmap string jvalue :=
    <["sender" := JStr "  "]> {[ "password" := JStr "a b" ]} in
  update_notification_settings (quiet body) (World None [])
  = (Returned (Failure "Sender must be a single valid email address."),
     World None []).
Proof.
  intros body.
  destruct (X10_first_rejection_is_reported (quiet body) body (World None [])
              eq_refl) as (H & _ & He).
  apply H. apply (He (JStr "  ")); reflexivity.
Defined.

(** ** Updating twice *)

Lemma merge_twice (updates : gmap string fval) (old : option (gmap string fval)) :
  firestore.merge updates (Some (firestore.merge updates old))
  = firestore.merge updates old.
Proof.
  unfold firestore.merge. cbn [default from_option id].
  rewrite map_union_assoc, map_union_idemp. reflexivity.
Qed.

(** X11: a successful update done a second time with the same request
    succeeds again and leaves the document as the first one left it; the
    write is done again when the request has something to update. *)
Theorem X11_update_twice E body w w' msg :
  request_json E = Returned body ->
  update_notification_settings E w = (Returned (Success msg), w') ->
  exists w'',
    update_notification_settings E w' = (Returned (Success msg), w'')
    /\ store w'' = store w'
    /\ (yields_update body ->
        exists updates, writes w'' = updates :: updates :: writes w).
Proof.
  intros Hreq Hup.
  destruct (validate body) as [r|updates] eqn:Hval.
  { destruct (validate_Return body r Hval) as [reason ->].
    erewrite update_Return in Hup by eassumption. congruence. }
  pose proof (validate_yields_update body updates Hval) as Hy.
  erewrite update_Continue by eassumption.
  erewrite update_Continue in Hup by eassumption.
  destruct (dict_truthy updates) eqn:Ht.
  - destruct (client_error E); [congruence |].
    destruct (set_error E); [congruence |].
    injection Hup as <- <-. eexists. split; [reflexivity |].
    cbn [store writes]. split.
    + rewrite merge_twice. reflexivity.
    + intros _. eauto.
  - injection Hup as <- <-. exists w. split; [reflexivity |].
    split; [reflexivity |].
    intros Hyes. apply Hy in Hyes. apply dict_truthy_false in Ht. contradiction.
Qed.

Lemma X11_update_twice_witness :
  let body : gmap string jvalue := {[ "sender" := JStr "a@b.com" ]} in
  let w := World (Some {[ "password" := FStr "pw" ]}) [] in
  let w' := snd (update_notification_settings (quiet body) w) in
  exists w'',
    update_notification_settings (quiet body) w' = (Returned success, w'')
    /\ store w'' = store w'.
Proof.
  intros body w w'.
  destruct (X11_update_twice (quiet body) body w w'
              "Settings updated successfully" eq_refl)
    as (w'' & H1 & H2 & _).
  - vm_compute. reflexivity.
  - exists w''. split; assumption.
Defined.

(** ** When the link is null *)

(** X12: the link of a shaped row is null exactly when [video_url] is
    missing, or is null while [start_sec] is missing or [int(start_sec)]
    has no text.  A null [video_url] with a numeric [start_sec] standing
    for [n] gives the text ["None&t=<n>s"], not null; with a [start_sec]
    that is null or not numeric it gives null.  A numeric cell has the text
    of its number, a cell that is null or not numeric has none. *)
Theorem X12_null_link (float_repr : spec_float -> string) (r : Row) :
  (link (shape float_repr r) = PNone <->
     r !! "video_url" = None
     \/ (r !! "video_url" = Some PNone
         /\ (r !! "start_sec" = None
             \/ exists sec, r !! "start_sec" = Some sec
                            /\ seconds_text sec = None)))
  /\ (forall sec n,
        r !! "video_url" = Some PNone -> r !! "start_sec" = Some sec ->
        numeric sec n -> (Z.abs n < 10 ^ 4300)%Z ->
        link (shape float_repr r) = PStr ("None&t=" +:+ Py.str_of_Z n +:+ "s"))
  /\ (forall sec,
        r !! "video_url" = Some PNone -> r !! "start_sec" = Some sec ->
        not_numeric sec ->
        link (shape float_repr r) = PNone)
  /\ (forall sec n, numeric sec n -> (Z.abs n < 10 ^ 4300)%Z ->
        seconds_text sec = Some (Py.str_of_Z n))
  /\ (forall sec, not_numeric sec -> seconds_text sec = None).
Proof.
  unfold shape, row_link, try_link, getattr. cbn [link].
  split; [| split; [| split; [| split]]].
  - destruct (r !! "video_url") as [url|]; cbn [mbind option_bind default];
      [| tauto].
    destruct (r !! "start_sec") as [sec|]; cbn [mbind option_bind].
    + destruct (seconds_text sec) as [seconds|] eqn:Hs;
        cbn [mbind option_bind from_option id].
      * split; [discriminate |].
        intros [H | [_ [H | (sec' & [= <-] & H)]]]; congruence.
      * split.
        -- intros ->. right. eauto.
        -- intros [H | [[= ->] _]]; [discriminate | reflexivity].
    + cbn [from_option id]. split.
      * intros ->. right. auto.
      * intros [H | [[= ->] _]]; [discriminate | reflexivity].
  - intros sec n -> -> Hn Hlim. cbn [mbind option_bind].
    rewrite (seconds_text_numeric sec n Hn Hlim). reflexivity.
  - intros sec -> -> Hn. cbn [mbind option_bind].
    rewrite (seconds_text_not_numeric sec Hn). reflexivity.
  - exact seconds_text_numeric.
  - exact seconds_text_not_numeric.
Qed.

Lemma X12_null_link_witness :
  let r : Row := <["video_url" := PNone]> {[ "start_sec" := PInt 42 ]} in
  let r' : Row :=
    <["video_url" := PNone]> {[ "start_sec" := PStr (String "028" "42") ]} in
  link (shape (fun _ => EmptyString) r) = PStr "None&t=42s"
  /\ link (shape (fun _ => EmptyString) r') = PNone.
Proof.
  intros r r'. split.
  - apply (proj1 (proj2 (X12_null_link (fun _ => EmptyString) r))
             (PInt 42) 42%Z);
      [reflexivity | reflexivity | constructor | reflexivity].
  - apply (proj1 (proj2 (proj2 (X12_null_link (fun _ => EmptyString) r')))
             (PStr (String "028" "42"))); [reflexivity | reflexivity |].
    apply not_numeric_text. reflexivity.
Defined.

(** ** The records of the mentions handler *)

(** X13: when the client is built and the query returns rows, the mentions
    handler returns, whatever the rows hold: [count] is the number of rows,
    there is one record per row in the order of the rows, and the record of
    a row gives each attribute the row has and null for one it lacks, with
    [created_at] as text, ["None"] when the row lacks it. *)
Theorem X13_one_record_per_row float_repr (P D T : string) (B : bq_env)
  (hours : Z) (rows : list Row) :
  bq_client_error B = None ->
  run_query B (sql P D T) [hours_parameter hours] = Returned rows ->
  exists resp,
    get_recent_mentions float_repr P D T B hours = Returned resp
    /\ count resp = length rows
    /\ length (results resp) = length rows
    /\ forall i r, rows !! i = Some r ->
         exists m, results resp !! i = Some m
           /\ video_name m = default PNone (r !! "video_name")
           /\ keyword m = default PNone (r !! "keyword")
           /\ text m = default PNone (r !! "text")
           /\ video_url m = default PNone (r !! "video_url")
           /\ start_sec m = default PNone (r !! "start_sec")
           /\ created_at m = cell_str float_repr (default PNone (r !! "created_at"))
           /\ (r !! "created_at" = None -> created_at m = "None").
Proof.
  intros Hc Hq. rewrite get_recent_mentions_runs by exact Hc. rewrite Hq.
  eexists. split; [reflexivity |]. cbn [count results].
  split; [reflexivity |]. split; [apply length_map |].
  intros i r Hr. exists (shape float_repr r). split.
  - change (List.map (shape float_repr) rows) with (shape float_repr <$> rows).
    rewrite list_lookup_fmap, Hr. reflexivity.
  - unfold shape, getattr. cbn. repeat split. intros ->. reflexivity.
Qed.

Lemma X13_one_record_per_row_witness :
  let r : Row := {[ "video_url" := PStr "https://x/y" ]} in
  let B := {| bq_client_error := None;
              run_query := fun _ _ => Returned [r; r] |} in
  exists resp,
    get_recent_mentions (fun _ => EmptyString) "p" "d" "mentions" B 24
    = Returned resp
    /\ count resp = 2.
Proof.
  intros r B.
  destruct (X13_one_record_per_row (fun _ => EmptyString) "p" "d" "mentions"
              B 24 [r; r] eq_refl eq_refl) as (resp & H & Hn & _).
  exists resp. split; assumption.
Defined.
